(** * server.js: the APK template replacement builder

    A shallow embedding of [server.js] and the properties of its request
    handlers.

    Modelling conventions.
    - JavaScript strings and Node [Buffer]s are both byte strings
      ([string]).  [Buffer.from(s, 'utf8')] and [buf.toString('utf8')] are
      the identity on them; this is exact for ASCII text.
    - [toLowerCase] lowers the letters [A]-[Z].  No other character is
      mapped by JavaScript to a character of the markers and suffixes the
      server looks for, so the tests embedded here are unaffected.
    - The file system is explicit state: one finite map per directory.
      Writing a file does not fail.
    - [Date.now()] and [Math.random()] are inputs of a handler; a handler
      runs within one clock reading.
    - A thrown exception is a [None] result that the handler's [catch]
      branch consumes.
    - The archive library is not part of the repository; it is modelled on
      the entry table of an archive (module [AdmZip]).
    - Timers are explicit state; a timer fires no later than the first
      request whose clock reading reaches its due time. *)

From Stdlib Require Import ZArith NArith String Ascii List Lia Bool.
From stdpp Require Import base strings gmap list pretty sorting.

Local Open Scope string_scope.

(** ** JavaScript string primitives *)

Module JS.

(** [c] lowered as [String.prototype.toLowerCase] lowers an ASCII letter. *)
Definition lower_char (c : ascii) : ascii :=
  let n := N_of_ascii c in
  if ((65 <=? n) && (n <=? 90))%N then ascii_of_N (n + 32) else c.

Fixpoint string_map (f : ascii → ascii) (s : string) : string :=
  match s with
  | EmptyString => EmptyString
  | String c s' => String (f c) (string_map f s')
  end.

Definition toLowerCase (s : string) : string := string_map lower_char s.

(** [s.startsWith(p)] *)
Fixpoint startsWith (s p : string) : bool :=
  match p, s with
  | EmptyString, _ => true
  | String _ _, EmptyString => false
  | String b p', String a s' => Ascii.eqb a b && startsWith s' p'
  end.

(** [s.includes(p)]: [p] occurs at some position of [s]. *)
Fixpoint includes (s p : string) : bool :=
  startsWith s p ||
  match s with
  | EmptyString => false
  | String _ s' => includes s' p
  end.

(** [s.endsWith(p)]: some suffix of [s] is [p]. *)
Fixpoint endsWith (s p : string) : bool :=
  String.eqb s p ||
  match s with
  | EmptyString => false
  | String _ s' => endsWith s' p
  end.

(** [a || b] on a possibly missing string field: [undefined] and the empty
    string are falsy. *)
Definition or_default (a : option string) (b : string) : string :=
  match a with
  | Some (String c s) => String c s
  | _ => b
  end.

(** [s.substring(0, n)] *)
Definition substring0 (n : nat) (s : string) : string := String.substring 0 n s.

(** The class [[\w\-]] of the regular expression in [projectName]. *)
Definition is_word_or_dash (c : ascii) : bool :=
  let n := N_of_ascii c in
  (((48 <=? n) && (n <=? 57)) || ((65 <=? n) && (n <=? 90)) ||
   ((97 <=? n) && (n <=? 122)) || (n =? 95) || (n =? 45))%N.

(** [s.replace(/[^\w\-]/g, '-')] *)
Definition replace_unsafe (s : string) : string :=
  string_map (λ c, if is_word_or_dash c then c else "-"%char) s.

(** Every character of [s] satisfies [P]. *)
Fixpoint string_forall (P : ascii → bool) (s : string) : bool :=
  match s with
  | EmptyString => true
  | String c s' => P c && string_forall P s'
  end.

(** A decimal digit, as [Date.now()] prints in a template literal. *)
Definition is_digit (c : ascii) : bool :=
  let n := N_of_ascii c in ((48 <=? n) && (n <=? 57))%N.

(** The string has no underscore. *)
Definition underscore_free (s : string) : bool :=
  string_forall (λ c, negb (Ascii.eqb c "_")) s.

(** [m] occurs in [s] up to the case of ASCII letters. *)
Definition occurs_ci (s m : string) : Prop :=
  ∃ a x b, s = a +:+ x +:+ b ∧ toLowerCase x = m.

End JS.

(** ** The content validator *)

(** [isLikelyHtml(s)] for a string argument: the guard [!s] rejects the
    empty string. *)
Definition isLikelyHtml (s : string) : bool :=
  match s with
  | EmptyString => false
  | _ =>
    let lowered := JS.toLowerCase s in
    if JS.includes lowered "<!doctype html" || JS.includes lowered "<html"
       || JS.includes lowered "<body"
    then true else false
  end.

(** ** The archive library *)

Module AdmZip.

(** [adm-zip] is a dependency of [server.js]; its code is not part of the
    repository.  The operations the server calls are modelled on the entry
    table of the archive, kept in archive order, as section 4.3 of the
    specification describes them: an existing entry gets the replacement
    content and the engine's default metadata, every other entry is copied
    through with content and metadata unchanged, a missing entry is created
    at the given path. *)

(** Modelled from the spec: the metadata of an entry, "compression method"
    and "timestamps, permissions bits". *)
Record EntryMeta := { method : N; time : N; attr : N }.

(** Modelled from the spec: an entry, "a named, addressable byte payload
    inside the container". *)
Record ZipEntry := { entryName : string; data : string; header : EntryMeta }.

(** Modelled from the spec: the content of a file is the bytes of a
    well-formed archive, identified with its entry table (serialization is
    the library's, and a function of the table), or any other bytes. *)
Inductive Blob :=
| Raw (bytes : string)
| Archive (entries : list ZipEntry).

(** Modelled from the spec: [new AdmZip(file)] "parses containerBytes as a
    zip-structured archive" and fails when it cannot be read; [None] is the
    thrown error. *)
Definition open (b : Blob) : option (list ZipEntry) :=
  match b with
  | Archive z => Some z
  | Raw _ => None
  end.

(** Modelled from the spec: [zip.getEntry(name)], the entry at the path
    [name] if there is one; names are compared exactly (the handler's
    comment: case-sensitive). *)
Fixpoint getEntry (z : list ZipEntry) (name : string) : option ZipEntry :=
  match z with
  | [] => None
  | e :: z' => if String.eqb (entryName e) name then Some e else getEntry z' name
  end.

Section Ops.
Variable defaults : EntryMeta.

Definition newEntry (name content : string) : ZipEntry :=
  {| entryName := name; data := content; header := defaults |}.

(** Modelled from the spec: [zip.updateFile(name, content)] replaces the
    content of the entry [getEntry] finds and resets its metadata to the
    defaults; the other entries are copied through. *)
Fixpoint updateFile (z : list ZipEntry) (name content : string) : list ZipEntry :=
  match z with
  | [] => []
  | e :: z' =>
    if String.eqb (entryName e) name then newEntry name content :: z'
    else e :: updateFile z' name content
  end.

(** Modelled from the spec: [zip.addFile(name, content)] creates a new
    entry at the path, after the existing ones (an entry that is there
    already is replaced, as by [updateFile]). *)
Definition addFile (z : list ZipEntry) (name content : string) : list ZipEntry :=
  match getEntry z name with
  | Some _ => updateFile z name content
  | None => z ++ [newEntry name content]
  end.
End Ops.

(** Modelled from the spec: [zip.writeZip(file)] stores the bytes of the
    archive. *)
Definition writeZip (z : list ZipEntry) : Blob := Archive z.

End AdmZip.

Import AdmZip.

(** ** Server state *)

(** A record of [DB.requests]: the one a successful generation prepends, and
    the one the [catch] branch prepends. *)
Inductive LedgerRec :=
| Generated (id username projectName replacePath filename : string) (createdAt : N)
| Failed (id : N) (error : string).

Record Stats := { success : N; fail : N }.

Record Db := { stats : Stats; requests : list LedgerRec }.

Record Server := {
  DB : Db;                          (* the variable [DB] *)
  db_json : Db;                     (* the file [db.json] *)
  templates_dir : gmap string Blob; (* the directory [templates] *)
  generated_dir : gmap string Blob; (* the directory [generated] *)
  timers : list (N * string)        (* pending [setTimeout]s: due time, file *)
}.

Definition initial_db : Db :=
  {| stats := {| success := 0; fail := 0 |}; requests := [] |}.

Definition initial_server : Server :=
  {| DB := initial_db; db_json := initial_db; templates_dir := ∅;
     generated_dir := ∅; timers := [] |}.

(** [saveDB()] *)
Definition saveDB (s : Server) : Server :=
  {| DB := DB s; db_json := DB s; templates_dir := templates_dir s;
     generated_dir := generated_dir s; timers := timers s |}.

Definition set_DB (d : Db) (s : Server) : Server :=
  {| DB := d; db_json := db_json s; templates_dir := templates_dir s;
     generated_dir := generated_dir s; timers := timers s |}.

Definition set_templates (t : gmap string Blob) (s : Server) : Server :=
  {| DB := DB s; db_json := db_json s; templates_dir := t;
     generated_dir := generated_dir s; timers := timers s |}.

Definition set_generated (g : gmap string Blob) (s : Server) : Server :=
  {| DB := DB s; db_json := db_json s; templates_dir := templates_dir s;
     generated_dir := g; timers := timers s |}.

Definition set_timers (t : list (N * string)) (s : Server) : Server :=
  {| DB := DB s; db_json := db_json s; templates_dir := templates_dir s;
     generated_dir := generated_dir s; timers := t |}.

(** ** Requests and responses *)

Record UploadedFile := { originalname : string; buffer : string }.

(** The fields of a [POST /api/create-apk] request; [None] is a field that
    was not sent. *)
Record CreateReq := {
  body_username : option string;
  body_projectName : option string;
  body_replacePath : option string;
  body_text : option string;
  req_file : option UploadedFile
}.

(** The request with its [text] field, and with its [replacePath] field,
    set to another value. *)
Definition with_text (t : option string) (req : CreateReq) : CreateReq :=
  {| body_username := body_username req; body_projectName := body_projectName req;
     body_replacePath := body_replacePath req; body_text := t;
     req_file := req_file req |}.

Definition with_replacePath (p : option string) (req : CreateReq) : CreateReq :=
  {| body_username := body_username req; body_projectName := body_projectName req;
     body_replacePath := p; body_text := body_text req;
     req_file := req_file req |}.

Inductive Extra :=
| NoExtra
| Filename (name : string)
| Templates (files : list string)
| DownloadUrl (url : string)
| ErrorText (error : string).

Record Response := { status : N; ok : bool; message : option string; extra : Extra }.

(** [res.status(st).json({ ok: o, message: msg, ... })] *)
Definition json (st : N) (o : bool) (msg : string) (e : Extra) : Response :=
  {| status := st; ok := o; message := Some msg; extra := e |}.

(** [res.json({ ok: true, templates: files })] *)
Definition json_templates (files : list string) : Response :=
  {| status := 200; ok := true; message := None; extra := Templates files |}.

(** [fs.readdirSync(dir)]: the names of the directory, in the byte order
    of the names in which the runtime's directory scan returns them. *)
Definition readdirSync (dir : gmap string Blob) : list string :=
  merge_sort String.le (map fst (map_to_list dir)).

(** [fs.unlinkSync(file)]: [None] when it throws because there is no such
    file. *)
Definition unlinkSync (file : string) (dir : gmap string Blob) : option (gmap string Blob) :=
  match dir !! file with
  | Some _ => Some (delete file dir)
  | None => None
  end.

(** [setTimeout(f, ms)] fires after [ms] milliseconds; the runtime sets a
    delay that is not a number, below 1 or above 2147483647 to 1. *)
Definition timeout_delay (ms : option Z) : N :=
  match ms with
  | Some d => if ((1 <=? d) && (d <=? 2147483647))%Z then Z.to_N d else 1%N
  | None => 1%N
  end.

(** ** The request handlers *)

(** The name of the copy of the last uploaded template. *)
Definition CURRENT : string := "current_template.apk".

(** What the server is started with:
    - [ADMIN_PASS] is [process.env.ADMIN_PASS || 'admin123'];
    - [CLEANUP_SECONDS] is
      [parseInt(process.env.CLEANUP_SECONDS || '3600', 10)], [None] for
      [NaN];
    - [engine_defaults] is the metadata the archive library gives to an
      entry it writes;
    - [INVALID_FORMAT] is the text [String(err)] of the error the archive
      library throws on a file that is not an archive. *)
Class Config := {
  ADMIN_PASS : string;
  CLEANUP_SECONDS : option Z;
  engine_defaults : EntryMeta;
  INVALID_FORMAT : string
}.

Section Handlers.
Context {cfg : Config}.

(** [req.headers['x-admin-pass'] || req.query.pass || ''] *)
Definition admin_pass (header query : option string) : string :=
  JS.or_default header (JS.or_default query "").

(** [POST /api/admin/upload-template] *)
Definition upload_template (now : N) (header query : option string)
    (file : option Blob) (s : Server) : Response * Server :=
  let pass := admin_pass header query in
  if negb (String.eqb pass ADMIN_PASS) then (json 401 false "unauthorized" NoExtra, s)
  else match file with
  | None => (json 400 false "no file uploaded" NoExtra, s)
  | Some buf =>
    let name := "template_" +:+ pretty now +:+ ".apk" in
    let s1 := set_templates (<[name := buf]> (templates_dir s)) s in
    let s2 := set_templates (<[CURRENT := buf]> (templates_dir s1)) s1 in
    (json 200 true "template uploaded" (Filename name), s2)
  end.

(** [GET /api/admin/templates] *)
Definition list_templates (header query : option string) (s : Server) : Response :=
  let pass := admin_pass header query in
  if negb (String.eqb pass ADMIN_PASS) then json 401 false "unauthorized" NoExtra
  else
    let files := List.filter (λ f, JS.endsWith f ".apk") (readdirSync (templates_dir s)) in
    json_templates files.

(** The fields of the request as the handler reads them. *)
Definition username_of (req : CreateReq) : string :=
  JS.substring0 64 (JS.or_default (body_username req) "anon").

Definition projectName_of (req : CreateReq) : string :=
  let projectNameRaw := JS.or_default (body_projectName req) "rapz-app" in
  JS.or_default (Some (JS.substring0 50 (JS.replace_unsafe projectNameRaw))) "rapz-app".

Definition replacePath_of (req : CreateReq) : string :=
  JS.or_default (body_replacePath req) "assets/www/index.html".

Definition UNSUPPORTED_FILE : string :=
  "Uploaded file not supported for direct replacement. Upload .html or use paste.".
Definition NO_HTML : string :=
  "No HTML provided. Paste code or upload .html file.".
Definition NOT_HTML : string :=
  "Provided content does not look like valid HTML.".
Definition NO_TEMPLATE : string :=
  "No APK template found on server. Upload via admin panel first.".

(** The branch that chooses [htmlContent]: the uploaded file when there
    is one, the pasted text otherwise; [inl] is an early [return]. *)
Definition htmlContent_of (req : CreateReq) : Response + string :=
  match req_file req with
  | Some f =>
    let fname := JS.toLowerCase (originalname f) in
    if JS.endsWith fname ".html" || JS.endsWith fname ".htm" then inr (buffer f)
    else inl (json 400 false UNSUPPORTED_FILE NoExtra)
  | None =>
    match body_text req with
    | Some (String c t) => inr (String c t)
    | _ => inl (json 400 false NO_HTML NoExtra)
    end
  end.

(** Lines 130-137: replace the entry at [replacePath], or create it. *)
Definition rewrite (zip : list ZipEntry) (replacePath content : string) : list ZipEntry :=
  match getEntry zip replacePath with
  | Some _ => updateFile engine_defaults zip replacePath content
  | None => addFile engine_defaults zip replacePath content
  end.

(** The [catch] branch. *)
Definition catch_error (now : N) (err : string) (s : Server) : Response * Server :=
  let db := DB s in
  let db1 := {| stats := {| success := success (stats db); fail := fail (stats db) + 1 |};
                requests := requests db |} in
  let db2 := {| stats := stats db1; requests := Failed now err :: requests db1 |} in
  (json 500 false "server error" (ErrorText err), saveDB (set_DB db2 s)).

Definition outName_of (now : N) (req : CreateReq) : string :=
  projectName_of req +:+ "_" +:+ pretty now +:+ ".apk".

(** The delay of the clean-up timer, [CLEANUP_SECONDS * 1000]. *)
Definition cleanup_delay : N :=
  timeout_delay (option_map (λ c, c * 1000)%Z CLEANUP_SECONDS).

(** [POST /api/create-apk], run at clock reading [now]; [rnd] is the
    value of [Math.random().toString(36).slice(2,8)]. *)
Definition create_apk (now : N) (rnd : string) (req : CreateReq) (s : Server)
    : Response * Server :=
  let username := username_of req in
  let projectName := projectName_of req in
  let replacePath := replacePath_of req in
  match htmlContent_of req with
  | inl resp => (resp, s)
  | inr htmlContent =>
    if negb (isLikelyHtml htmlContent) then (json 400 false NOT_HTML NoExtra, s)
    else match templates_dir s !! CURRENT with
    | None => (json 500 false NO_TEMPLATE NoExtra, s)
    | Some curTemplate =>
      let outName := outName_of now req in
      match AdmZip.open curTemplate with
      | None => catch_error now INVALID_FORMAT s
      | Some zip =>
        let zip' := rewrite zip replacePath htmlContent in
        let s1 := set_generated (<[outName := writeZip zip']> (generated_dir s)) s in
        let rec := Generated (pretty now +:+ "_" +:+ rnd) username projectName
                             replacePath outName now in
        let db := DB s1 in
        let db1 := {| stats := stats db; requests := rec :: requests db |} in
        let db2 := {| stats := {| success := success (stats db1) + 1;
                                  fail := fail (stats db1) |};
                      requests := requests db1 |} in
        let s2 := saveDB (set_DB db2 s1) in
        let s3 := set_timers (timers s2 ++ [((now + cleanup_delay)%N, outName)]) s2 in
        (json 200 true "APK generated" (DownloadUrl ("/generated/" +:+ outName)), s3)
      end
    end
  end.

(** [GET /generated/<name>], served by [express.static]: the bytes of
    the file, [None] when there is none (the request is not found). *)
Definition fetch (name : string) (s : Server) : option Blob :=
  generated_dir s !! name.

(** The callback of the clean-up timer: [unlinkSync] in a [try] whose
    [catch] ignores the error. *)
Definition cleanup (file : string) (s : Server) : Server :=
  match unlinkSync file (generated_dir s) with
  | Some g => set_generated g s
  | None => s
  end.

(** The event loop at clock reading [now]: every timer that is due fires,
    in the order the timers were set. *)
Definition run_timers (now : N) (s : Server) : Server :=
  let due := List.filter (λ t, (fst t <=? now)%N) (timers s) in
  let rest := List.filter (λ t, negb (fst t <=? now)%N) (timers s) in
  fold_left (λ st t, cleanup (snd t) st) due (set_timers rest s).

(** What reaches the server. *)
Inductive Request :=
| CreateApk (rnd : string) (req : CreateReq)
| UploadTemplate (header query : option string) (file : option Blob)
| ListTemplates (header query : option string)
| GetGenerated (name : string).

Definition handle (now : N) (r : Request) (s : Server) : Server :=
  match r with
  | CreateApk rnd req => snd (create_apk now rnd req s)
  | UploadTemplate h q f => snd (upload_template now h q f s)
  | ListTemplates _ _ => s
  | GetGenerated _ => s
  end.

(** A request arriving at [now] is served after the timers due by then. *)
Definition serve (s : Server) (ev : N * Request) : Server :=
  handle (fst ev) (snd ev) (run_timers (fst ev) s).

Definition run (evs : list (N * Request)) (s : Server) : Server :=
  fold_left serve evs s.

(** The clock readings of a run never go back, starting from [t]. *)
Fixpoint monotone (t : N) (evs : list (N * Request)) : Prop :=
  match evs with
  | [] => True
  | ev :: evs' => (t <= fst ev)%N ∧ monotone (fst ev) evs'
  end.

End Handlers.

(** ** The specification's wording, for comparison *)

Module Spec.

(** The markers as the specification names them: "a doctype declaration,
    an opening [<html], or an opening [<body>] tag", looked for without
    regard to case. *)
Definition has_structural_marker (s : string) : bool :=
  let lowered := JS.toLowerCase s in
  JS.includes lowered "<!doctype" || JS.includes lowered "<html"
  || JS.includes lowered "<body>".

(** The segments of a path: the pieces between its [/] separators. *)
Fixpoint segments_from (cur p : string) : list string :=
  match p with
  | EmptyString => [cur]
  | String c p' =>
    if Ascii.eqb c "/" then cur :: segments_from "" p'
    else segments_from (cur +:+ String c "") p'
  end.

(** The path has a parent-traversal segment [..]. *)
Definition has_parent_segment (p : string) : bool :=
  existsb (String.eqb "..") (segments_from "" p).

End Spec.

(** ** A small server to run the handlers on *)

Module Example.

Definition meta : EntryMeta := {| method := 8; time := 0; attr := 0 |}.

Definition index_html : ZipEntry :=
  {| entryName := "assets/www/index.html"; data := "old"; header := meta |}.

Definition manifest : ZipEntry :=
  {| entryName := "AndroidManifest.xml"; data := "<manifest/>"; header := meta |}.

Definition entries : list ZipEntry := [manifest; index_html].

Definition template : Blob := Archive entries.

(** The configuration of a server started with an empty environment. *)
Definition config : Config :=
  {| ADMIN_PASS := "admin123"; CLEANUP_SECONDS := Some 3600%Z;
     engine_defaults := meta;
     INVALID_FORMAT := "Error: Invalid or unsupported zip format. No END header found" |}.

(** The server after the administrator uploaded [template] at 1000 ms. *)
Definition server : Server :=
  snd (upload_template (cfg := config) 1000 (Some "admin123") None (Some template)
         initial_server).

(** A pasted page for the path [path], sent by [user]. *)
Definition paste (user : string) (path : option string) (page : string) : CreateReq :=
  {| body_username := Some user; body_projectName := Some "my app";
     body_replacePath := path; body_text := Some page; req_file := None |}.

Definition page : string := "<!doctype html><html><body>new</body></html>".

(** The server after a second upload of [template], at 2000 ms. *)
Definition server_two_uploads : Server :=
  snd (upload_template (cfg := config) 2000 (Some "admin123") None (Some template)
         server).

(** What reaches the server between a generation at 2000 ms and the
    time its artifact is due for removal. *)
Definition traffic : list (N * Request) :=
  [ (2000%N, CreateApk "k3x9qa" (paste "bob" None page));
    (2500%N, UploadTemplate (Some "admin123") None (Some template));
    (90000%N, CreateApk "p0m2zz" (paste "ana" (Some "res/raw/a.html") page)) ].

(** A server whose current template is not an archive. *)
Definition broken_server : Server :=
  snd (upload_template (cfg := config) 1000 (Some "admin123") None
         (Some (Raw "not a zip")) initial_server).

(** A request that sends both a file named [name] and the pasted [page]. *)
Definition file_and_paste (name : string) : CreateReq :=
  {| body_username := Some "ana"; body_projectName := Some "my app";
     body_replacePath := None; body_text := Some page;
     req_file := Some {| originalname := name; buffer := "<html>file</html>" |} |}.

End Example.

(** ** The remaining endpoints, the start of the server, the ledger *)

Section Admin.
Context {cfg : Config}.

(** [req.query.pass || req.headers['x-admin-pass'] || ''], the order in
    which [GET /api/admin/db] reads the password. *)
Definition admin_pass_db (header query : option string) : string :=
  JS.or_default query (JS.or_default header "").

(** [GET /api/admin/db]: [inl] is the refusal, [inr db] the answer
    [{ ok: true, db: DB }]. *)
Definition admin_db (header query : option string) (s : Server) : Response + Db :=
  let pass := admin_pass_db header query in
  if negb (String.eqb pass ADMIN_PASS) then inl (json 401 false "unauthorized" NoExtra)
  else inr (DB s).

(** [GET /api/health] *)
Definition health : Response :=
  {| status := 200; ok := true; message := None; extra := NoExtra |}.

End Admin.

(** The server process started again on the files a previous process left:
    [DB] is read back from [db.json], the directories are as they were, and
    no timer is pending. *)
Definition restart (s : Server) : Server :=
  {| DB := db_json s; db_json := db_json s; templates_dir := templates_dir s;
     generated_dir := generated_dir s; timers := [] |}.

(** The clock reading a ledger record carries: [createdAt], and the [id] of
    a failure record. *)
Definition rec_time (r : LedgerRec) : N :=
  match r with
  | Generated _ _ _ _ _ createdAt => createdAt
  | Failed id _ => id
  end.

Definition is_generated (r : LedgerRec) : bool :=
  match r with
  | Generated _ _ _ _ _ _ => true
  | Failed _ _ => false
  end.

(** The characters of the name of a generated file. *)
Definition is_name_char (c : ascii) : bool :=
  JS.is_word_or_dash c || Ascii.eqb c ".".

(** The name under which [POST /api/admin/upload-template] stores the
    file it receives at clock reading [now]. *)
Definition template_name (now : N) : string := "template_" +:+ pretty now +:+ ".apk".

(** The answer [res.status(401).json({ ok: false, message: 'unauthorized' })]. *)
Definition REFUSED : Response := json 401 false "unauthorized" NoExtra.

Definition is_upload (r : Request) : bool :=
  match r with
  | UploadTemplate _ _ _ => true
  | _ => false
  end.

(** Every file of the directory [generated] has a timer pending, and every
    timer is the one of an artifact, set for its clock reading plus the
    delay. *)
Definition removals_pending {cfg : Config} (s : Server) : Prop :=
  (∀ n, is_Some (fetch n s) → ∃ d, (d, n) ∈ timers s) ∧
  (∀ d n, (d, n) ∈ timers s →
          ∃ t req, n = outName_of t req ∧ d = (t + cleanup_delay)%N).

(** ** More requests for the example server *)

Module Scenario.
Import Example.

(** A request whose labels conform. *)
Definition conforming : CreateReq :=
  {| body_username := Some "ana"; body_projectName := Some "my-app_2";
     body_replacePath := None; body_text := Some page; req_file := None |}.

(** Requests that come after a generation at 2000 ms. *)
Definition later_traffic : list (N * Request) :=
  [ (2500%N, UploadTemplate (Some "admin123") None (Some template));
    (90000%N, CreateApk "p0m2zz" (paste "ana" (Some "res/raw/a.html") page)) ].

End Scenario.

(** * Properties *)

(** ** Facts on the string primitives *)

Module JSFacts.
Import JS.

Lemma startsWith_spec s p : startsWith s p = true ↔ ∃ b, s = p +:+ b.
Proof.
  revert s. induction p as [|c p IH]; intros s; simpl.
  - split; [intros _; by exists s | by destruct s].
  - destruct s as [|a s]; simpl.
    + split; [done | intros [b Hb]; discriminate].
    + rewrite andb_true_iff, Ascii.eqb_eq, IH. split.
      * intros [-> [b ->]]. by exists b.
      * intros [b Hb]. injection Hb as -> ->. split; [done | by exists b].
Qed.

Lemma includes_spec s p : includes s p = true ↔ ∃ a b, s = a +:+ p +:+ b.
Proof.
  induction s as [|c s IH]; cbn [includes]; rewrite orb_true_iff, startsWith_spec.
  - split.
    + intros [[b Hb] | ?]; [by exists "", b | done].
    + intros (a & b & Hab). left. destruct a; [by exists b | discriminate].
  - rewrite IH. split.
    + intros [[b Hb] | (a & b & ->)]; [by exists "", b | by exists (String c a), b].
    + intros ([|c' a] & b & Hab); simpl in Hab.
      * left. by exists b.
      * right. injection Hab as -> ->. by exists a, b.
Qed.

Lemma endsWith_spec s p : endsWith s p = true ↔ ∃ a, s = a +:+ p.
Proof.
  induction s as [|c s IH]; cbn [endsWith]; rewrite orb_true_iff, String.eqb_eq.
  - split.
    + intros [<- | ?]; [by exists "" | done].
    + intros ([|c a] & Ha); [by left | discriminate].
  - rewrite IH. split.
    + intros [<- | [a ->]]; [by exists "" | by exists (String c a)].
    + intros ([|c' a] & Ha); simpl in Ha; [by left | right].
      injection Ha as -> ->. by exists a.
Qed.

Lemma string_map_app f a b : string_map f (a +:+ b) = string_map f a +:+ string_map f b.
Proof. induction a as [|c a IH]; simpl; [done | by rewrite IH]. Qed.

Lemma string_map_split f s a' b' :
  string_map f s = a' +:+ b' →
  ∃ a b, s = a +:+ b ∧ string_map f a = a' ∧ string_map f b = b'.
Proof.
  revert s. induction a' as [|c a' IH]; intros s H; simpl in H.
  - by exists "", s.
  - destruct s as [|d s]; [discriminate |]. simpl in H. injection H as Hc Hs.
    destruct (IH _ Hs) as (a & b & -> & Ha & Hb).
    exists (String d a), b. simpl. by rewrite Hc, Ha.
Qed.

Lemma string_map_length f s : String.length (string_map f s) = String.length s.
Proof. induction s; simpl; congruence. Qed.

Lemma substring0_length n s : (String.length (substring0 n s) ≤ n)%nat.
Proof.
  unfold substring0. revert s. induction n as [|n IH]; intros [|c s]; simpl; try lia.
  specialize (IH s). lia.
Qed.

Lemma substring0_prefix n s : ∃ rest, s = substring0 n s +:+ rest.
Proof.
  unfold substring0. revert s. induction n as [|n IH]; intros [|c s]; simpl.
  - by exists "".
  - by exists (String c s).
  - by exists "".
  - destruct (IH s) as [rest Hr]. exists rest.
    change (String c s = String c (substring 0 n s +:+ rest)). by f_equal.
Qed.

Lemma string_forall_substring0 P n s :
  string_forall P s = true → string_forall P (substring0 n s) = true.
Proof.
  unfold substring0. revert s. induction n as [|n IH]; intros [|c s]; simpl; try done.
  rewrite !andb_true_iff. intros [? ?]. auto.
Qed.

Lemma replace_unsafe_safe s : string_forall is_word_or_dash (replace_unsafe s) = true.
Proof.
  unfold replace_unsafe. induction s as [|c s IH]; simpl; [done |].
  rewrite IH, andb_true_r. destruct (is_word_or_dash c) eqn:E; [done | reflexivity].
Qed.

Lemma includes_lowered s m : includes (toLowerCase s) m = true ↔ occurs_ci s m.
Proof.
  rewrite includes_spec. unfold occurs_ci, toLowerCase. split.
  - intros (a' & b' & H).
    apply string_map_split in H as (a & r & -> & _ & Hr).
    apply string_map_split in Hr as (x & b & -> & Hx & _).
    by exists a, x, b.
  - intros (a & x & b & -> & <-). rewrite !string_map_app. eauto.
Qed.

End JSFacts.

(** ** Facts on the archive operations *)

Module AdmZipFacts.

Lemma getEntry_name z p e : getEntry z p = Some e → entryName e = p.
Proof.
  induction z as [|e0 z IH]; simpl; [done |].
  destruct (String.eqb (entryName e0) p) eqn:E; [|done].
  intros [= <-]. by apply String.eqb_eq.
Qed.

Lemma getEntry_app z1 z2 p :
  getEntry (z1 ++ z2) p =
  match getEntry z1 p with Some e => Some e | None => getEntry z2 p end.
Proof.
  induction z1 as [|e0 z1 IH]; simpl; [done |].
  by destruct (String.eqb (entryName e0) p).
Qed.

Section Ops.
Variable d : EntryMeta.

Lemma getEntry_newEntry p x : getEntry [newEntry d p x] p = Some (newEntry d p x).
Proof. simpl. by rewrite String.eqb_refl. Qed.

(** [updateFile] overwrites the position of the entry [getEntry] finds. *)
Lemma updateFile_insert z p x e :
  getEntry z p = Some e →
  ∃ i, z !! i = Some e ∧ updateFile d z p x = <[i := newEntry d p x]> z.
Proof.
  induction z as [|e0 z IH]; simpl; [done |].
  destruct (String.eqb (entryName e0) p) eqn:E.
  - intros [= <-]. by exists 0.
  - intros H. destruct (IH H) as (i & Hi & ->). by exists (S i).
Qed.

Lemma updateFile_absent z p x : getEntry z p = None → updateFile d z p x = z.
Proof.
  induction z as [|e0 z IH]; simpl; [done |].
  destruct (String.eqb (entryName e0) p); [done |].
  intros H. by rewrite IH.
Qed.

Lemma getEntry_updateFile_eq z p x e :
  getEntry z p = Some e → getEntry (updateFile d z p x) p = Some (newEntry d p x).
Proof.
  induction z as [|e0 z IH]; simpl; [done |].
  destruct (String.eqb (entryName e0) p) eqn:E; simpl.
  - by rewrite String.eqb_refl.
  - by rewrite E.
Qed.

Lemma getEntry_updateFile_ne z p q x :
  q ≠ p → getEntry (updateFile d z p x) q = getEntry z q.
Proof.
  intros Hne. induction z as [|e0 z IH]; simpl; [done |].
  destruct (String.eqb (entryName e0) p) eqn:E; simpl.
  - apply String.eqb_eq in E. rewrite E.
    destruct (String.eqb p q) eqn:E'; [|done].
    apply String.eqb_eq in E'. congruence.
  - by rewrite IH.
Qed.

Lemma updateFile_idem z p x :
  updateFile d (updateFile d z p x) p x = updateFile d z p x.
Proof.
  induction z as [|e0 z IH]; simpl; [done |].
  destruct (String.eqb (entryName e0) p) eqn:E; simpl.
  - by rewrite String.eqb_refl.
  - by rewrite E, IH.
Qed.

Lemma updateFile_app_absent z p x :
  getEntry z p = None →
  updateFile d (z ++ [newEntry d p x]) p x = (z ++ [newEntry d p x])%list.
Proof.
  induction z as [|e0 z IH]; simpl.
  - by rewrite String.eqb_refl.
  - destruct (String.eqb (entryName e0) p); [done |].
    intros H. by rewrite IH.
Qed.

End Ops.

End AdmZipFacts.

(** ** The archive rewrite *)

Section Rewrite.
Context {cfg : Config}.
Import AdmZipFacts.

(** The handler's rewrite, by the two cases of its lookup. *)
Lemma rewrite_present z p x e :
  getEntry z p = Some e → rewrite z p x = updateFile engine_defaults z p x.
Proof. unfold rewrite. by intros ->. Qed.

Lemma rewrite_absent z p x :
  getEntry z p = None → rewrite z p x = (z ++ [newEntry engine_defaults p x])%list.
Proof. unfold rewrite, addFile. by intros ->. Qed.

Lemma getEntry_rewrite z p x :
  getEntry (rewrite z p x) p = Some (newEntry engine_defaults p x).
Proof.
  destruct (getEntry z p) as [e|] eqn:E.
  - rewrite (rewrite_present _ _ _ _ E). by eapply getEntry_updateFile_eq.
  - rewrite (rewrite_absent _ _ _ E), getEntry_app, E. apply getEntry_newEntry.
Qed.

Lemma getEntry_rewrite_ne z p q x :
  q ≠ p → getEntry (rewrite z p x) q = getEntry z q.
Proof.
  intros Hne. destruct (getEntry z p) as [e|] eqn:E.
  - rewrite (rewrite_present _ _ _ _ E). by apply getEntry_updateFile_ne.
  - rewrite (rewrite_absent _ _ _ E), getEntry_app.
    destruct (getEntry z q); [done |]. simpl.
    destruct (String.eqb p q) eqn:E'; [|done].
    apply String.eqb_eq in E'. congruence.
Qed.

(** C1. For a readable container [C] with entry table [z], a path [P]
    that has an entry in it and replacement content [X]: the container the
    handler writes is readable again; its entry at [P] extracts to exactly
    [X]; the lookup of every other path gives the entry of [C]; and the
    table is [z] with the one position of [P]'s entry overwritten, so that
    every other entry is the one of [C], content and metadata. *)
Theorem rewrite_replaces_present_entry (C : Blob) (z : list ZipEntry)
    (P X : string) (e : ZipEntry) :
  AdmZip.open C = Some z →
  getEntry z P = Some e →
  let z' := rewrite z P X in
  AdmZip.open (writeZip z') = Some z' ∧
  (∃ e', getEntry z' P = Some e' ∧ data e' = X) ∧
  (∀ Q, Q ≠ P → getEntry z' Q = getEntry z Q) ∧
  length z' = length z ∧
  (∃ i, z !! i = Some e ∧ z' !! i = Some (newEntry engine_defaults P X) ∧
        ∀ j, j ≠ i → z' !! j = z !! j).
Proof.
  intros _ He z'. subst z'. split; [done |]. split; [|split; [|split]].
  - exists (newEntry engine_defaults P X). split; [apply getEntry_rewrite | done].
  - intros Q HQ. by apply getEntry_rewrite_ne.
  - rewrite (rewrite_present _ _ _ _ He).
    destruct (updateFile_insert engine_defaults z P X e He) as (i & _ & ->).
    apply length_insert.
  - rewrite (rewrite_present _ _ _ _ He).
    destruct (updateFile_insert engine_defaults z P X e He) as (i & Hi & ->).
    exists i. split; [done |]. split.
    + apply list_lookup_insert_eq. by eapply lookup_lt_Some.
    + intros j Hj. by apply list_lookup_insert_ne.
Qed.

(** C6. Rewriting the container that a rewrite produced, at the same path
    with the same content, gives the same container again, byte for byte. *)
Theorem rewrite_idempotent (C : Blob) (z : list ZipEntry) (P X : string) :
  AdmZip.open C = Some z →
  let C1 := writeZip (rewrite z P X) in
  ∃ z1, AdmZip.open C1 = Some z1 ∧ writeZip (rewrite z1 P X) = C1.
Proof.
  intros _ C1. subst C1. exists (rewrite z P X). split; [done |].
  f_equal. destruct (getEntry z P) as [e|] eqn:E.
  - rewrite (rewrite_present _ _ _ _ E).
    erewrite rewrite_present by (by eapply getEntry_updateFile_eq).
    apply updateFile_idem.
  - rewrite (rewrite_absent _ _ _ E).
    erewrite rewrite_present
      by (rewrite getEntry_app, E; apply getEntry_newEntry).
    by apply updateFile_app_absent.
Qed.
End Rewrite.

(** ** The paths through [create_apk] *)

Section CreateApk.
Context {cfg : Config}.
Import AdmZipFacts JSFacts.

Lemma create_apk_turned_away now rnd req s resp :
  htmlContent_of req = inl resp → create_apk now rnd req s = (resp, s).
Proof. unfold create_apk. by intros ->. Qed.

Lemma create_apk_not_html now rnd req s c :
  htmlContent_of req = inr c → isLikelyHtml c = false →
  create_apk now rnd req s = (json 400 false NOT_HTML NoExtra, s).
Proof. unfold create_apk. by intros -> ->. Qed.

Lemma create_apk_no_template now rnd req s c :
  htmlContent_of req = inr c → isLikelyHtml c = true →
  templates_dir s !! CURRENT = None →
  create_apk now rnd req s = (json 500 false NO_TEMPLATE NoExtra, s).
Proof. unfold create_apk, CURRENT. by intros -> -> ->. Qed.

Lemma create_apk_thrown now rnd req s c b :
  htmlContent_of req = inr c → isLikelyHtml c = true →
  templates_dir s !! CURRENT = Some b → AdmZip.open b = None →
  create_apk now rnd req s = catch_error now INVALID_FORMAT s.
Proof. unfold create_apk, CURRENT. by intros -> -> -> ->. Qed.

Lemma create_apk_generated now rnd req s c b z :
  htmlContent_of req = inr c → isLikelyHtml c = true →
  templates_dir s !! CURRENT = Some b → AdmZip.open b = Some z →
  ∃ s',
    create_apk now rnd req s =
      (json 200 true "APK generated"
         (DownloadUrl ("/generated/" +:+ outName_of now req)), s') ∧
    generated_dir s' =
      <[outName_of now req := writeZip (rewrite z (replacePath_of req) c)]>
        (generated_dir s) ∧
    templates_dir s' = templates_dir s ∧
    timers s' = (timers s ++ [((now + cleanup_delay)%N, outName_of now req)])%list ∧
    DB s' = {| stats := {| success := success (stats (DB s)) + 1;
                           fail := fail (stats (DB s)) |};
               requests :=
                 Generated (pretty now +:+ "_" +:+ rnd) (username_of req)
                   (projectName_of req) (replacePath_of req)
                   (outName_of now req) now :: requests (DB s) |} ∧
    db_json s' = DB s'.
Proof.
  unfold create_apk, CURRENT. intros -> -> -> ->. simpl.
  eexists. split; [reflexivity |]. by simpl.
Qed.

(** Every request takes exactly one of the five paths. *)
Lemma create_apk_paths req s :
  (∃ resp, htmlContent_of req = inl resp) ∨
  (∃ c, htmlContent_of req = inr c ∧ isLikelyHtml c = false) ∨
  (∃ c, htmlContent_of req = inr c ∧ isLikelyHtml c = true ∧
        templates_dir s !! CURRENT = None) ∨
  (∃ c b, htmlContent_of req = inr c ∧ isLikelyHtml c = true ∧
          templates_dir s !! CURRENT = Some b ∧ AdmZip.open b = None) ∨
  (∃ c b z, htmlContent_of req = inr c ∧ isLikelyHtml c = true ∧
            templates_dir s !! CURRENT = Some b ∧ AdmZip.open b = Some z).
Proof.
  destruct (htmlContent_of req) as [resp|c]; [left; eauto |]. right.
  destruct (isLikelyHtml c) eqn:Hc; [|left; eauto]. right.
  destruct (templates_dir s !! CURRENT) as [b|] eqn:Hb; [|left; eauto]. right.
  destruct (AdmZip.open b) as [z|] eqn:Hz; [right|left]; eauto 10.
Qed.

Lemma htmlContent_of_inl req resp :
  htmlContent_of req = inl resp →
  resp = json 400 false UNSUPPORTED_FILE NoExtra ∨ resp = json 400 false NO_HTML NoExtra.
Proof.
  unfold htmlContent_of. destruct (req_file req) as [f|].
  - destruct (_ || _); [done |]. intros [= <-]. by left.
  - destruct (body_text req) as [[|a t]|]; try done; intros [= <-]; by right.
Qed.

End CreateApk.

(** ** The content validator and the fields of a request *)

Section Validation.
Context {cfg : Config}.
Import JS JSFacts.

(** C5 (amended). The validator accepts a text exactly when it contains,
    in any letter case, one of the three strings [<!doctype html], [<html]
    or [<body]; a request whose content is not accepted is answered 400 and
    leaves the server as it was: no artifact, no ledger record. *)
Theorem validator_accepts_exact_markers :
  (∀ s, isLikelyHtml s = true ↔
        occurs_ci s "<!doctype html" ∨ occurs_ci s "<html" ∨ occurs_ci s "<body") ∧
  (∀ now rnd req st c,
     htmlContent_of req = inr c → isLikelyHtml c = false →
     create_apk now rnd req st = (json 400 false NOT_HTML NoExtra, st)).
Proof.
  split; [|intros; by eapply create_apk_not_html].
  intros s. rewrite <- !includes_lowered. unfold isLikelyHtml.
  destruct s as [|a s].
  - by vm_compute; intuition discriminate.
  - destruct (includes _ "<!doctype html"), (includes _ "<html"),
      (includes _ "<body"); simpl; intuition discriminate.
Qed.

(** C8 (amended). The record of a generated artifact holds the project
    label sanitized to letters, digits, [_] and [-], not empty and at most
    50 characters long, and the requester label cut to at most 64
    characters but otherwise as it was sent: it is a prefix of the submitted
    name (of [anon] when none was sent). *)
Theorem recorded_labels now rnd req s resp s' :
  create_apk now rnd req s = (resp, s') → ok resp = true →
  ∃ id u p path file t,
    requests (DB s') = Generated id u p path file t :: requests (DB s) ∧
    u = username_of req ∧ p = projectName_of req ∧
    (String.length u ≤ 64)%nat ∧
    (∃ rest, or_default (body_username req) "anon" = u +:+ rest) ∧
    (String.length p ≤ 50)%nat ∧ p ≠ "" ∧
    string_forall is_word_or_dash p = true.
Proof.
  intros Hc Hok.
  assert (Hp : string_forall is_word_or_dash (projectName_of req) = true ∧
               (String.length (projectName_of req) ≤ 50)%nat ∧
               projectName_of req ≠ "").
  { unfold projectName_of, or_default at 1.
    pose proof (replace_unsafe_safe (or_default (body_projectName req) "rapz-app")) as Hs.
    pose proof (substring0_length 50
      (replace_unsafe (or_default (body_projectName req) "rapz-app"))) as Hl.
    apply (string_forall_substring0 _ 50) in Hs.
    destruct (substring0 50 _) as [|a t].
    - repeat split; [simpl; lia | done].
    - by repeat split. }
  destruct Hp as (Hsafe & Hlen & Hne).
  destruct (create_apk_paths req s)
    as [[r H]|[(c & H & Hv)|[(c & H & Hv & Ht)|[(c & b & H & Hv & Ht & Hz)|(c & b & z & H & Hv & Ht & Hz)]]]].
  - rewrite (create_apk_turned_away _ _ _ _ _ H) in Hc. injection Hc as <- <-.
    by destruct (htmlContent_of_inl _ _ H) as [-> | ->].
  - rewrite (create_apk_not_html _ _ _ _ _ H Hv) in Hc. by injection Hc as <- <-.
  - rewrite (create_apk_no_template _ _ _ _ _ H Hv Ht) in Hc. by injection Hc as <- <-.
  - rewrite (create_apk_thrown _ _ _ _ _ _ H Hv Ht Hz) in Hc. by injection Hc as <- <-.
  - destruct (create_apk_generated now rnd _ _ _ _ _ H Hv Ht Hz)
      as (s1 & Hs1 & _ & _ & _ & Hdb & _).
    rewrite Hs1 in Hc. injection Hc as _ <-. rewrite Hdb. simpl.
    eexists _, _, _, _, _, _. split; [reflexivity |].
    repeat split; try done.
    + apply substring0_length.
    + apply substring0_prefix.
Qed.

(** C10. When a request carries an uploaded file, the pasted text plays no
    part in the answer; and when the name of the file, in lower case, ends
    neither in [.html] nor in [.htm], the request is rejected, whatever the
    pasted text, and the server stays as it was. *)
Theorem uploaded_file_takes_precedence now rnd req s f :
  req_file req = Some f →
  (∀ t, create_apk now rnd (with_text t req) s = create_apk now rnd req s) ∧
  (endsWith (toLowerCase (originalname f)) ".html" = false →
   endsWith (toLowerCase (originalname f)) ".htm" = false →
   ∀ t, create_apk now rnd (with_text t req) s =
        (json 400 false UNSUPPORTED_FILE NoExtra, s)).
Proof.
  intros Hf.
  assert (Heq : ∀ t, create_apk now rnd (with_text t req) s = create_apk now rnd req s).
  { intros t. unfold create_apk, outName_of, username_of, projectName_of,
      replacePath_of, htmlContent_of. simpl. by rewrite Hf. }
  split; [done |]. intros H1 H2 t. rewrite Heq.
  apply create_apk_turned_away. unfold htmlContent_of. by rewrite Hf, H1, H2.
Qed.

End Validation.

(** ** Generation: target path and failure accounting *)

Section Generation.
Context {cfg : Config}.
Import AdmZipFacts JSFacts.

(** C2 (amended). The handler makes no check of the target path.  A request
    whose path has a parent-traversal segment is handled as any other: the
    path goes unchanged to the archive lookup and update, and with an
    accepted content and a readable current template the request is
    answered 200 and its artifact, the template rewritten at that path, can
    be fetched. *)
Theorem traversal_path_not_checked now rnd req s c b z :
  Spec.has_parent_segment (replacePath_of req) = true →
  htmlContent_of req = inr c → isLikelyHtml c = true →
  templates_dir s !! CURRENT = Some b → AdmZip.open b = Some z →
  ∃ s' z',
    create_apk now rnd req s =
      (json 200 true "APK generated"
         (DownloadUrl ("/generated/" +:+ outName_of now req)), s') ∧
    fetch (outName_of now req) s' = Some (writeZip z') ∧
    z' = rewrite z (replacePath_of req) c.
Proof.
  intros _ H Hv Ht Hz.
  destruct (create_apk_generated now rnd _ _ _ _ _ H Hv Ht Hz)
    as (s' & Hs' & Hg & _).
  exists s', (rewrite z (replacePath_of req) c). split; [done |].
  split; [|done].
  unfold fetch. rewrite Hg. apply lookup_insert_eq.
Qed.

(** C3 (amended). A request that fails because an error is thrown (the
    current template is not a readable archive) is answered 500 "server
    error"; exactly one record with the error text is prepended to the
    ledger and the failure counter grows by exactly one.  A request that the
    handler turns away by an early return (unsupported file, no HTML,
    content not accepted, no template) changes nothing: no ledger record, no
    counter.  No failed request creates an artifact.  In particular, without
    a current template every failed request leaves the server as it was. *)
Theorem failure_accounting now rnd req s resp s' :
  create_apk now rnd req s = (resp, s') → ok resp = false →
  ((resp = json 500 false "server error" (ErrorText INVALID_FORMAT) ∧
    (∃ c b, htmlContent_of req = inr c ∧ isLikelyHtml c = true ∧
            templates_dir s !! CURRENT = Some b ∧ AdmZip.open b = None) ∧
    DB s' = {| stats := {| success := success (stats (DB s));
                           fail := fail (stats (DB s)) + 1 |};
               requests := Failed now INVALID_FORMAT :: requests (DB s) |} ∧
    db_json s' = DB s' ∧ generated_dir s' = generated_dir s ∧
    templates_dir s' = templates_dir s ∧ timers s' = timers s)
   ∨
   (s' = s ∧
    (resp = json 400 false UNSUPPORTED_FILE NoExtra ∨
     resp = json 400 false NO_HTML NoExtra ∨
     resp = json 400 false NOT_HTML NoExtra ∨
     (resp = json 500 false NO_TEMPLATE NoExtra ∧
      templates_dir s !! CURRENT = None)))) ∧
  (templates_dir s !! CURRENT = None → s' = s).
Proof.
  intros Hc Hok.
  destruct (create_apk_paths req s)
    as [[r H]|[(c & H & Hv)|[(c & H & Hv & Ht)|[(c & b & H & Hv & Ht & Hz)|(c & b & z & H & Hv & Ht & Hz)]]]].
  - rewrite (create_apk_turned_away _ _ _ _ _ H) in Hc. injection Hc as <- <-.
    split; [right; split; [done |] | done].
    destruct (htmlContent_of_inl _ _ H) as [-> | ->]; auto.
  - rewrite (create_apk_not_html _ _ _ _ _ H Hv) in Hc. injection Hc as <- <-.
    split; [right; auto | done].
  - rewrite (create_apk_no_template _ _ _ _ _ H Hv Ht) in Hc. injection Hc as <- <-.
    split; [right; auto 10 | done].
  - rewrite (create_apk_thrown _ _ _ _ _ _ H Hv Ht Hz) in Hc.
    unfold catch_error in Hc. injection Hc as <- <-.
    split; [left | by rewrite Ht]. split; [done |].
    split; [by exists c, b |]. by simpl.
  - destruct (create_apk_generated now rnd _ _ _ _ _ H Hv Ht Hz) as (s1 & Hs1 & _).
    rewrite Hs1 in Hc. by injection Hc as <- <-.
Qed.

(** C9. A request that sends no target path is treated as one sending
    [assets/www/index.html]: both get the same answer and leave the same
    server.  With an accepted content and a readable current template the
    request succeeds, and the artifact holds the content in the entry
    [assets/www/index.html]. *)
Theorem default_target_path now rnd req s c b z :
  body_replacePath req = None →
  htmlContent_of req = inr c → isLikelyHtml c = true →
  templates_dir s !! CURRENT = Some b → AdmZip.open b = Some z →
  replacePath_of req = "assets/www/index.html" ∧
  create_apk now rnd req s =
    create_apk now rnd (with_replacePath (Some "assets/www/index.html") req) s ∧
  ∃ s',
    create_apk now rnd req s =
      (json 200 true "APK generated"
         (DownloadUrl ("/generated/" +:+ outName_of now req)), s') ∧
    fetch (outName_of now req) s' =
      Some (writeZip (rewrite z "assets/www/index.html" c)) ∧
    getEntry (rewrite z "assets/www/index.html" c) "assets/www/index.html" =
      Some (newEntry engine_defaults "assets/www/index.html" c).
Proof.
  intros Hp H Hv Ht Hz.
  assert (Hpath : replacePath_of req = "assets/www/index.html").
  { unfold replacePath_of. by rewrite Hp. }
  split; [done |]. split.
  - unfold create_apk, outName_of, username_of, projectName_of, replacePath_of,
      htmlContent_of. simpl. by rewrite Hp.
  - destruct (create_apk_generated now rnd _ _ _ _ _ H Hv Ht Hz)
      as (s' & Hs' & Hg & _).
    exists s'. split; [done |]. rewrite Hpath in Hg.
    split; [|apply getEntry_rewrite].
    unfold fetch. rewrite Hg. apply lookup_insert_eq.
Qed.

End Generation.

(** ** The template registry *)

Section Registry.
Context {cfg : Config}.
Import JS JSFacts.

Lemma filter_StronglySorted {A} (R : relation A) (f : A → bool) (l : list A) :
  StronglySorted R l → StronglySorted R (List.filter f l).
Proof.
  induction 1 as [|x l Hl IH Hx]; simpl; [constructor |].
  destruct (f x); [|done]. constructor; [done |].
  apply Forall_forall. intros y Hy.
  apply list_elem_of_In, filter_In in Hy as [Hy _].
  apply list_elem_of_In in Hy. by eapply (proj1 (Forall_forall _ _) Hx).
Qed.

Lemma readdirSync_elem (dir : gmap string Blob) (f : string) :
  f ∈ readdirSync dir ↔ is_Some (dir !! f).
Proof.
  unfold readdirSync. rewrite merge_sort_Permutation, list_elem_of_fmap. split.
  - intros ([k v] & -> & Hkv). apply elem_of_map_to_list in Hkv. by exists v.
  - intros [v Hv]. exists (f, v). split; [done |]. by apply elem_of_map_to_list.
Qed.

Lemma readdirSync_NoDup (dir : gmap string Blob) : NoDup (readdirSync dir).
Proof.
  unfold readdirSync. rewrite merge_sort_Permutation. apply NoDup_fst_map_to_list.
Qed.

Lemma readdirSync_sorted (dir : gmap string Blob) :
  StronglySorted String.le (readdirSync dir).
Proof. unfold readdirSync. apply StronglySorted_merge_sort; apply _. Qed.

(** C7 (amended). For the administrator, the listing is the names of the
    files of the templates directory that end in [.apk], each once, in the
    order of the directory scan, which is the ascending byte order of the
    names: no reversal is applied, and the copy [current_template.apk] is
    listed with the uploaded templates. *)
Theorem list_templates_directory_order header query s :
  admin_pass header query = ADMIN_PASS →
  ∃ files,
    list_templates header query s = json_templates files ∧
    files = List.filter (λ f, endsWith f ".apk") (readdirSync (templates_dir s)) ∧
    (∀ f, f ∈ files ↔ is_Some (templates_dir s !! f) ∧ endsWith f ".apk" = true) ∧
    StronglySorted String.le files ∧ NoDup files ∧
    (is_Some (templates_dir s !! CURRENT) → CURRENT ∈ files).
Proof.
  intros Hpass. eexists. split; [|split; [reflexivity |]].
  { unfold list_templates. by rewrite Hpass, String.eqb_refl. }
  assert (Hin : ∀ f, f ∈ List.filter (λ f, endsWith f ".apk") (readdirSync (templates_dir s))
                ↔ is_Some (templates_dir s !! f) ∧ endsWith f ".apk" = true).
  { intros f. rewrite list_elem_of_In, filter_In, <- list_elem_of_In.
    by rewrite readdirSync_elem. }
  split; [done |]. split; [|split].
  - apply filter_StronglySorted, readdirSync_sorted.
  - apply NoDup_ListNoDup, List.NoDup_filter, NoDup_ListNoDup, readdirSync_NoDup.
  - intros Hcur. apply Hin. split; [done | reflexivity].
Qed.

End Registry.

(** ** Artifact names *)

Module NameFacts.
Import JS JSFacts.

Lemma pretty_N_go_digits x s :
  string_forall is_digit s = true → string_forall is_digit (pretty_N_go x s) = true.
Proof.
  revert s. induction (N.lt_wf_0 x) as [x _ IH]; intros s Hs.
  destruct (decide (x = 0)%N) as [->|Hx]; [by rewrite pretty_N_go_0 |].
  rewrite pretty_N_go_step by lia. apply IH.
  - apply N.div_lt; lia.
  - simpl. rewrite Hs, andb_true_r. unfold pretty_N_char.
    by repeat case_match.
Qed.

Lemma pretty_digits (n : N) : string_forall is_digit (pretty n) = true.
Proof.
  unfold pretty, pretty_N. case_decide; [done |]. by apply pretty_N_go_digits.
Qed.

Lemma digit_not_underscore c : is_digit c = true → Ascii.eqb c "_" = false.
Proof.
  unfold is_digit. intros H. destruct (Ascii.eqb c "_") eqn:E; [|done].
  apply Ascii.eqb_eq in E. by subst c.
Qed.

Lemma digit_not_dot c : is_digit c = true → Ascii.eqb c "." = false.
Proof.
  unfold is_digit. intros H. destruct (Ascii.eqb c ".") eqn:E; [|done].
  apply Ascii.eqb_eq in E. by subst c.
Qed.

Lemma underscore_free_app_cons a b : underscore_free (a +:+ String "_" b) = false.
Proof.
  unfold underscore_free. induction a as [|c a IH]; simpl; [done |].
  by rewrite IH, andb_false_r.
Qed.

Lemma digits_apk_underscore_free d :
  string_forall is_digit d = true → underscore_free (d +:+ ".apk") = true.
Proof.
  unfold underscore_free. induction d as [|c d IH]; simpl; [done |].
  rewrite andb_true_iff. intros [Hc Hd].
  by rewrite (digit_not_underscore _ Hc), IH.
Qed.

Lemma digits_apk_inj d1 d2 :
  string_forall is_digit d1 = true → string_forall is_digit d2 = true →
  d1 +:+ ".apk" = d2 +:+ ".apk" → d1 = d2.
Proof.
  revert d2. induction d1 as [|c d1 IH]; intros [|c2 d2]; simpl; try done.
  - rewrite andb_true_iff. intros _ [Hc _] [= <- _]. by apply digit_not_dot in Hc.
  - rewrite andb_true_iff. intros [Hc _] _ [= -> _]. by apply digit_not_dot in Hc.
  - rewrite !andb_true_iff. intros [_ H1] [_ H2] [= -> H]. f_equal. by apply IH.
Qed.

Lemma last_underscore_inj p1 p2 r1 r2 :
  underscore_free r1 = true → underscore_free r2 = true →
  p1 +:+ String "_" r1 = p2 +:+ String "_" r2 → r1 = r2.
Proof.
  intros H1 H2. revert p2. induction p1 as [|c p1 IH]; intros [|c2 p2]; simpl.
  - by intros [= ->].
  - intros [= <- ->]. by rewrite underscore_free_app_cons in H1.
  - intros [= -> <-]. by rewrite underscore_free_app_cons in H2.
  - intros [= _ H]. by eapply IH.
Qed.

(** Two artifact names that are equal were made at the same clock reading. *)
Lemma artifact_name_time (p1 p2 : string) (t1 t2 : N) :
  p1 +:+ "_" +:+ pretty t1 +:+ ".apk" = p2 +:+ "_" +:+ pretty t2 +:+ ".apk" →
  t1 = t2.
Proof.
  intros H. apply last_underscore_inj in H.
  - apply digits_apk_inj in H; [by apply (inj pretty) | apply pretty_digits ..].
  - apply digits_apk_underscore_free, pretty_digits.
  - apply digits_apk_underscore_free, pretty_digits.
Qed.

End NameFacts.

(** ** The life of an artifact *)

Section Lifecycle.
Context {cfg : Config}.
Import NameFacts.

Lemma timeout_delay_pos ms : (1 ≤ timeout_delay ms)%N.
Proof.
  unfold timeout_delay. destruct ms as [d|]; [|lia].
  destruct (_ && _) eqn:E; [|lia].
  apply andb_true_iff in E as [E _]. apply Z.leb_le in E. lia.
Qed.

Lemma cleanup_timers file s : timers (cleanup file s) = timers s.
Proof. unfold cleanup. by destruct (unlinkSync _ _). Qed.

Lemma fetch_cleanup_eq file s : fetch file (cleanup file s) = None.
Proof.
  unfold cleanup, unlinkSync, fetch.
  destruct (generated_dir s !! file) eqn:E; simpl; [apply lookup_delete_eq | done].
Qed.

Lemma fetch_cleanup_None file name s :
  fetch name s = None → fetch name (cleanup file s) = None.
Proof.
  unfold cleanup, unlinkSync, fetch. intros H.
  destruct (generated_dir s !! file) eqn:E; simpl; [|done].
  rewrite lookup_delete. by case_decide.
Qed.

Lemma cleanup_absent file s : fetch file s = None → cleanup file s = s.
Proof. unfold cleanup, unlinkSync, fetch. by intros ->. Qed.

Lemma cleanup_idempotent file s : cleanup file (cleanup file s) = cleanup file s.
Proof. apply cleanup_absent, fetch_cleanup_eq. Qed.

Lemma fold_cleanup_timers due s :
  timers (fold_left (λ st (t : N * string), cleanup (snd t) st) due s) = timers s.
Proof.
  revert s. induction due as [|t due IH]; intros s; simpl; [done |].
  by rewrite IH, cleanup_timers.
Qed.

Lemma fold_cleanup_None (due : list (N * string)) name s :
  fetch name s = None →
  fetch name (fold_left (λ st (t : N * string), cleanup (snd t) st) due s) = None.
Proof.
  revert s. induction due as [|t due IH]; intros s H; simpl; [done |].
  by apply IH, fetch_cleanup_None.
Qed.

Lemma fold_cleanup_fired (due : list (N * string)) d name s :
  (d, name) ∈ due →
  fetch name (fold_left (λ st (t : N * string), cleanup (snd t) st) due s) = None.
Proof.
  revert s. induction due as [|t due IH]; intros s H; simpl.
  - by apply elem_of_nil in H.
  - apply elem_of_cons in H as [<- | H]; [|by apply IH].
    apply fold_cleanup_None, fetch_cleanup_eq.
Qed.

Lemma run_timers_None t name s :
  fetch name s = None → fetch name (run_timers t s) = None.
Proof. intros H. unfold run_timers. by apply fold_cleanup_None. Qed.

Lemma run_timers_fired t d name s :
  (d, name) ∈ timers s → (d ≤ t)%N → fetch name (run_timers t s) = None.
Proof.
  intros H Hd. unfold run_timers. apply fold_cleanup_fired with d.
  apply list_elem_of_In, filter_In. split; [by apply list_elem_of_In |].
  by apply N.leb_le.
Qed.

Lemma run_timers_pending t d name s :
  (d, name) ∈ timers s → (t < d)%N → (d, name) ∈ timers (run_timers t s).
Proof.
  intros H Hd. unfold run_timers. rewrite fold_cleanup_timers. simpl.
  apply list_elem_of_In, filter_In. split; [by apply list_elem_of_In |].
  simpl. apply negb_true_iff, N.leb_gt. lia.
Qed.

(** What a generation request does to the artifacts and the timers. *)
Lemma create_apk_effect now rnd req s :
  let s' := snd (create_apk now rnd req s) in
  (generated_dir s' = generated_dir s ∧ timers s' = timers s) ∨
  (∃ B, generated_dir s' = <[outName_of now req := B]> (generated_dir s) ∧
        timers s' = (timers s ++ [((now + cleanup_delay)%N, outName_of now req)])%list).
Proof.
  simpl. destruct (create_apk_paths req s)
    as [[r H]|[(c & H & Hv)|[(c & H & Hv & Ht)|[(c & b & H & Hv & Ht & Hz)|(c & b & z & H & Hv & Ht & Hz)]]]].
  - rewrite (create_apk_turned_away _ _ _ _ _ H). by left.
  - rewrite (create_apk_not_html _ _ _ _ _ H Hv). by left.
  - rewrite (create_apk_no_template _ _ _ _ _ H Hv Ht). by left.
  - rewrite (create_apk_thrown _ _ _ _ _ _ H Hv Ht Hz). by left.
  - destruct (create_apk_generated now rnd _ _ _ _ _ H Hv Ht Hz)
      as (s1 & -> & Hg & _ & Htm & _).
    right. eauto.
Qed.

Lemma handle_pending t r d name s :
  (d, name) ∈ timers s → (d, name) ∈ timers (handle t r s).
Proof.
  intros H. destruct r as [rnd req|h q f| |]; simpl; try done.
  - destruct (create_apk_effect t rnd req s) as [[_ ->]|(B & _ & ->)]; [done |].
    apply elem_of_app. by left.
  - unfold upload_template. destruct (negb _); [done |]. by destruct f.
Qed.

Lemma handle_None t r t0 req0 s :
  t ≠ t0 →
  fetch (outName_of t0 req0) s = None →
  fetch (outName_of t0 req0) (handle t r s) = None.
Proof.
  intros Ht H. destruct r as [rnd req|h q f| |]; simpl; try done.
  - unfold fetch in *.
    destruct (create_apk_effect t rnd req s) as [[-> _]|(B & -> & _)]; [done |].
    rewrite lookup_insert_ne; [done |].
    intros Heq. apply artifact_name_time in Heq. done.
  - unfold upload_template. destruct (negb _); [done |]. by destruct f.
Qed.

(** Once the timer of an artifact is set, a request for the artifact that
    comes when the timer is due finds nothing, whatever was served in
    between. *)
Lemma expired_not_found t0 req0 evs c s t :
  let name := outName_of t0 req0 in
  let due := (t0 + cleanup_delay)%N in
  (due, name) ∈ timers s ∨ (fetch name s = None ∧ (due ≤ c)%N) →
  monotone c (evs ++ [(t, GetGenerated name)]) → (due ≤ t)%N →
  fetch name (run (evs ++ [(t, GetGenerated name)]) s) = None.
Proof.
  intros name due. revert c s. induction evs as [|[t1 r1] evs IH]; intros c s HI Hm Ht.
  - simpl. destruct HI as [HA | [HB _]];
      [by eapply run_timers_fired | by apply run_timers_None].
  - simpl in Hm. destruct Hm as [Hc Hm]. simpl. apply (IH t1); [|done..].
    unfold serve. simpl.
    pose proof (timeout_delay_pos (option_map (λ c, c * 1000)%Z CLEANUP_SECONDS)) as Hpos.
    fold cleanup_delay in Hpos.
    destruct HI as [HA | [HB Hd]].
    + destruct (decide (due ≤ t1)%N) as [Hle | Hgt].
      * right. split; [|done]. apply handle_None; [subst due; lia |].
        by eapply run_timers_fired.
      * left. apply handle_pending, run_timers_pending; [done | lia].
    + right. split; [|lia]. apply handle_None; [subst due; lia |].
      by apply run_timers_None.
Qed.

(** C4. A generation request that succeeds at clock reading [now] has
    written an artifact under the name of its download link.  Fetching that
    name right after the request returns exactly the bytes written, the
    rewritten template.  A fetch that comes [CLEANUP_SECONDS] or more after
    the request, whatever requests were served in between, finds nothing.
    The removal the timer performs is idempotent, and on a name that is
    already gone it changes nothing and raises nothing. *)
Theorem artifact_lifetime now rnd req s resp s' :
  create_apk now rnd req s = (resp, s') → ok resp = true →
  let name := outName_of now req in
  extra resp = DownloadUrl ("/generated/" +:+ name) ∧
  (∃ b z c, templates_dir s !! CURRENT = Some b ∧ AdmZip.open b = Some z ∧
            htmlContent_of req = inr c ∧
            fetch name s' = Some (writeZip (rewrite z (replacePath_of req) c))) ∧
  (∀ evs t, monotone now (evs ++ [(t, GetGenerated name)]) →
            (now + cleanup_delay ≤ t)%N →
            fetch name (run (evs ++ [(t, GetGenerated name)]) s') = None) ∧
  (∀ st, cleanup name (cleanup name st) = cleanup name st) ∧
  (∀ st, fetch name st = None → cleanup name st = st).
Proof.
  intros Hc Hok name.
  destruct (create_apk_paths req s)
    as [[r H]|[(c & H & Hv)|[(c & H & Hv & Ht)|[(c & b & H & Hv & Ht & Hz)|(c & b & z & H & Hv & Ht & Hz)]]]].
  - rewrite (create_apk_turned_away _ _ _ _ _ H) in Hc. injection Hc as <- <-.
    by destruct (htmlContent_of_inl _ _ H) as [-> | ->].
  - rewrite (create_apk_not_html _ _ _ _ _ H Hv) in Hc. by injection Hc as <- <-.
  - rewrite (create_apk_no_template _ _ _ _ _ H Hv Ht) in Hc. by injection Hc as <- <-.
  - rewrite (create_apk_thrown _ _ _ _ _ _ H Hv Ht Hz) in Hc. by injection Hc as <- <-.
  - destruct (create_apk_generated now rnd _ _ _ _ _ H Hv Ht Hz)
      as (s1 & Hs1 & Hg & _ & Htm & _).
    rewrite Hs1 in Hc. injection Hc as <- <-.
    split; [done |]. split; [|split; [|split]].
    + exists b, z, c. repeat split; try done.
      unfold fetch. rewrite Hg. apply lookup_insert_eq.
    + intros evs t Hm Ht'. apply (expired_not_found now req evs now); [|done..].
      left. rewrite Htm. apply elem_of_app. right. apply list_elem_of_singleton. done.
    + intros st. apply cleanup_idempotent.
    + intros st. apply cleanup_absent.
Qed.

End Lifecycle.

(** * Runs on the example server *)

Module Runs.
Import Example.

(** C1, on the example template: the entry [assets/www/index.html] is
    replaced by the page. *)
Lemma rewrite_replaces_present_entry_run :
  AdmZip.open template = Some entries ∧
  getEntry entries "assets/www/index.html" = Some index_html ∧
  ∃ e', getEntry (rewrite (cfg := config) entries "assets/www/index.html" page)
          "assets/www/index.html" = Some e' ∧ data e' = page.
Proof.
  split; [reflexivity |]. split; [reflexivity |].
  exact (proj1 (proj2 (rewrite_replaces_present_entry (cfg := config)
    template entries "assets/www/index.html" page index_html eq_refl eq_refl))).
Defined.

(** C6, on the example template and a path it has no entry for. *)
Lemma rewrite_idempotent_run :
  AdmZip.open template = Some entries ∧
  ∃ z1, AdmZip.open (writeZip (rewrite (cfg := config) entries "res/raw/a.html" page))
          = Some z1 ∧
        writeZip (rewrite (cfg := config) z1 "res/raw/a.html" page) =
        writeZip (rewrite (cfg := config) entries "res/raw/a.html" page).
Proof.
  split; [reflexivity |].
  exact (rewrite_idempotent (cfg := config) template entries "res/raw/a.html" page
           eq_refl).
Defined.

(** C2: a request for the path [../../x.html] is answered 200 and its
    artifact is written. *)
Lemma traversal_path_accepted :
  Spec.has_parent_segment "../../x.html" = true ∧
  fst (create_apk (cfg := config) 2000 "k3x9qa"
         (paste "ana" (Some "../../x.html") page) server)
  = json 200 true "APK generated" (DownloadUrl "/generated/my-app_2000.apk") ∧
  fetch "my-app_2000.apk"
    (snd (create_apk (cfg := config) 2000 "k3x9qa"
            (paste "ana" (Some "../../x.html") page) server))
  = Some (writeZip (rewrite (cfg := config) entries "../../x.html" page)).
Proof. by vm_compute. Qed.

Lemma traversal_path_not_checked_run :
  ∃ s' z',
    create_apk (cfg := config) 2000 "k3x9qa"
      (paste "ana" (Some "../../x.html") page) server =
      (json 200 true "APK generated"
         (DownloadUrl ("/generated/" +:+
            outName_of 2000 (paste "ana" (Some "../../x.html") page))), s') ∧
    fetch (outName_of 2000 (paste "ana" (Some "../../x.html") page)) s'
      = Some (writeZip z') ∧
    z' = rewrite (cfg := config) entries "../../x.html" page.
Proof.
  exact (traversal_path_not_checked (cfg := config) 2000 "k3x9qa"
           (paste "ana" (Some "../../x.html") page) server page template entries
           eq_refl eq_refl eq_refl eq_refl eq_refl).
Defined.

(** C3: without a template, a request with an accepted page is answered
    500 and nothing is recorded: the server is the initial one, with no
    ledger record and a failure counter of 0. *)
Lemma no_template_failure_not_recorded :
  create_apk (cfg := config) 2000 "k3x9qa" (paste "ana" None page) initial_server
  = (json 500 false NO_TEMPLATE NoExtra, initial_server) ∧
  fail (stats (DB initial_server)) = 0%N ∧ requests (DB initial_server) = [].
Proof. by vm_compute. Qed.

Lemma failure_accounting_run :
  ok (fst (create_apk (cfg := config) 2000 "k3x9qa" (paste "ana" None page)
             broken_server)) = false ∧
  DB (snd (create_apk (cfg := config) 2000 "k3x9qa" (paste "ana" None page)
             broken_server))
  = {| stats := {| success := success (stats (DB broken_server));
                   fail := fail (stats (DB broken_server)) + 1 |};
       requests := Failed 2000 (INVALID_FORMAT (Config := config))
                     :: requests (DB broken_server) |}.
Proof.
  split; [reflexivity |].
  destruct (failure_accounting (cfg := config) 2000 "k3x9qa" (paste "ana" None page)
              broken_server _ _ (surjective_pairing _) eq_refl)
    as [[(_ & _ & Hdb & _) | [_ Hr]] _].
  - exact Hdb.
  - exfalso. destruct Hr as [Hr|[Hr|[Hr|[Hr _]]]]; vm_compute in Hr; discriminate.
Defined.

(** C5: a doctype declaration that is not followed by exactly one space
    and [html] is a marker of the specification the validator does not
    accept, alone; and [<bodyguard>] has none of the specification's
    markers but is accepted. *)
Lemma validator_differs_from_spec_markers :
  Spec.has_structural_marker "<!DOCTYPE svg><svg></svg>" = true ∧
  isLikelyHtml "<!DOCTYPE svg><svg></svg>" = false ∧
  Spec.has_structural_marker "<!DOCTYPE  html>" = true ∧
  isLikelyHtml "<!DOCTYPE  html>" = false ∧
  Spec.has_structural_marker "<bodyguard>" = false ∧
  isLikelyHtml "<bodyguard>" = true.
Proof. by vm_compute. Qed.

(** C7: after uploads at 1000 and at 2000 ms the listing is not the
    uploaded names, latest first: the names come in ascending order and the
    current copy is listed with them. *)
Lemma listing_not_most_recent_first :
  fst (upload_template (cfg := config) 1000 (Some "admin123") None (Some template)
         initial_server)
  = json 200 true "template uploaded" (Filename "template_1000.apk") ∧
  fst (upload_template (cfg := config) 2000 (Some "admin123") None (Some template)
         server)
  = json 200 true "template uploaded" (Filename "template_2000.apk") ∧
  list_templates (cfg := config) (Some "admin123") None server_two_uploads
  = json_templates ["current_template.apk"; "template_1000.apk"; "template_2000.apk"] ∧
  ["current_template.apk"; "template_1000.apk"; "template_2000.apk"]
  ≠ List.rev ["template_1000.apk"; "template_2000.apk"].
Proof. by vm_compute. Qed.

Lemma list_templates_directory_order_run :
  ∃ files,
    list_templates (cfg := config) (Some "admin123") None server_two_uploads
      = json_templates files ∧
    StronglySorted String.le files ∧ CURRENT ∈ files.
Proof.
  destruct (list_templates_directory_order (cfg := config) (Some "admin123") None
              server_two_uploads eq_refl)
    as (files & Hl & _ & _ & Hs & _ & Hc).
  exists files. split; [exact Hl |]. split; [exact Hs |].
  apply Hc. exists template. vm_compute. reflexivity.
Defined.

(** C8: the requester label [<b>ana</b>] is recorded as it was sent. *)
Lemma requester_label_not_sanitized :
  requests (DB (snd (create_apk (cfg := config) 2000 "k3x9qa"
                       (paste "<b>ana</b>" None page) server)))
  = [Generated "2000_k3x9qa" "<b>ana</b>" "my-app" "assets/www/index.html"
       "my-app_2000.apk" 2000] ∧
  JS.string_forall JS.is_word_or_dash "<b>ana</b>" = false.
Proof. by vm_compute. Qed.

Lemma recorded_labels_run :
  ∃ id u p path file t,
    requests (DB (snd (create_apk (cfg := config) 2000 "k3x9qa"
                         (paste "<b>ana</b>" None page) server)))
      = Generated id u p path file t :: requests (DB server) ∧
    u = username_of (paste "<b>ana</b>" None page) ∧
    p = projectName_of (paste "<b>ana</b>" None page) ∧
    (String.length u ≤ 64)%nat ∧
    (∃ rest, JS.or_default (Some "<b>ana</b>") "anon" = u +:+ rest) ∧
    (String.length p ≤ 50)%nat ∧ p ≠ "" ∧
    JS.string_forall JS.is_word_or_dash p = true.
Proof.
  exact (recorded_labels (cfg := config) 2000 "k3x9qa" (paste "<b>ana</b>" None page)
           server _ _ (surjective_pairing _) eq_refl).
Defined.

(** C9: a paste without a target path on the example server. *)
Lemma default_target_path_run :
  replacePath_of (paste "ana" None page) = "assets/www/index.html" ∧
  create_apk (cfg := config) 2000 "k3x9qa" (paste "ana" None page) server =
    create_apk (cfg := config) 2000 "k3x9qa"
      (with_replacePath (Some "assets/www/index.html") (paste "ana" None page)) server ∧
  ∃ s',
    create_apk (cfg := config) 2000 "k3x9qa" (paste "ana" None page) server =
      (json 200 true "APK generated"
         (DownloadUrl ("/generated/" +:+ outName_of 2000 (paste "ana" None page))), s') ∧
    fetch (outName_of 2000 (paste "ana" None page)) s' =
      Some (writeZip (rewrite (cfg := config) entries "assets/www/index.html" page)) ∧
    getEntry (rewrite (cfg := config) entries "assets/www/index.html" page)
      "assets/www/index.html" = Some (newEntry meta "assets/www/index.html" page).
Proof.
  exact (default_target_path (cfg := config) 2000 "k3x9qa" (paste "ana" None page)
           server page template entries eq_refl eq_refl eq_refl eq_refl eq_refl).
Defined.

(** C10: a file named [App.ZIP] sent together with an acceptable pasted
    page is rejected. *)
Lemma uploaded_file_takes_precedence_run :
  isLikelyHtml page = true ∧
  ∀ t, create_apk (cfg := config) 2000 "k3x9qa"
         (with_text t (file_and_paste "App.ZIP")) server
       = (json 400 false UNSUPPORTED_FILE NoExtra, server).
Proof.
  split; [reflexivity |].
  exact (proj2 (uploaded_file_takes_precedence (cfg := config) 2000 "k3x9qa"
                  (file_and_paste "App.ZIP") server _ eq_refl) eq_refl eq_refl).
Defined.

(** C4: the artifact generated at 2000 ms is not found at 3602000 ms, after
    the example traffic. *)
Lemma artifact_lifetime_run :
  monotone 2000 (traffic ++ [(3602000%N,
     GetGenerated (outName_of 2000 (paste "ana" None page)))]) ∧
  fetch (outName_of 2000 (paste "ana" None page))
    (run (cfg := config)
       (traffic ++ [(3602000%N, GetGenerated (outName_of 2000 (paste "ana" None page)))])
       (snd (create_apk (cfg := config) 2000 "k3x9qa" (paste "ana" None page) server)))
  = None.
Proof.
  assert (Hm : monotone 2000 (traffic ++ [(3602000%N,
     GetGenerated (outName_of 2000 (paste "ana" None page)))])).
  { simpl. repeat split; lia. }
  split; [exact Hm |].
  refine (proj1 (proj2 (proj2 (artifact_lifetime (cfg := config) 2000 "k3x9qa"
           (paste "ana" None page) server _ _ (surjective_pairing _) eq_refl)))
           traffic 3602000%N Hm _).
  vm_compute. discriminate.
Defined.

End Runs.

(** * More of the server *)

(** ** The validator and the fields of a request, continued *)

Section Inputs.
Context {cfg : Config}.
Import JS JSFacts.

Lemma lower_char_idempotent c : lower_char (lower_char c) = lower_char c.
Proof. destruct c as [[] [] [] [] [] [] [] []]; reflexivity. Qed.

Lemma toLowerCase_idempotent s : toLowerCase (toLowerCase s) = toLowerCase s.
Proof.
  unfold toLowerCase. induction s as [|c s IH]; simpl; [done |].
  by rewrite lower_char_idempotent, IH.
Qed.

Lemma append_assoc (a b c : string) : (a +:+ b) +:+ c = a +:+ (b +:+ c).
Proof.
  induction a as [|x a IH]; [done |].
  change (String x ((a +:+ b) +:+ c) = String x (a +:+ b +:+ c)). by rewrite IH.
Qed.

Lemma occurs_ci_context s m a b : occurs_ci s m → occurs_ci (a +:+ s +:+ b) m.
Proof.
  intros (a0 & x & b0 & -> & Hx). exists (a +:+ a0), x, (b0 +:+ b).
  split; [|done]. by rewrite !append_assoc.
Qed.

Lemma isLikelyHtml_occurs s :
  isLikelyHtml s = true ↔
  occurs_ci s "<!doctype html" ∨ occurs_ci s "<html" ∨ occurs_ci s "<body".
Proof.
  rewrite <- !includes_lowered. unfold isLikelyHtml. destruct s as [|c s].
  - by vm_compute; intuition discriminate.
  - destruct (includes _ "<!doctype html"), (includes _ "<html"),
      (includes _ "<body"); simpl; intuition discriminate.
Qed.

(** X1. The validator looks at an occurrence only: a text it accepts stays
    accepted with any text put before and after it, and the letter case of
    a text plays no part in the verdict. *)
Theorem isLikelyHtml_context_and_case s :
  (isLikelyHtml s = true → ∀ a b, isLikelyHtml (a +:+ s +:+ b) = true) ∧
  isLikelyHtml (toLowerCase s) = isLikelyHtml s.
Proof.
  split.
  - intros H a b. apply isLikelyHtml_occurs. apply isLikelyHtml_occurs in H.
    destruct H as [H|[H|H]]; eauto using occurs_ci_context.
  - unfold isLikelyHtml. rewrite toLowerCase_idempotent.
    destruct s as [|c s]; reflexivity.
Qed.

Lemma replace_unsafe_id s :
  string_forall is_word_or_dash s = true → replace_unsafe s = s.
Proof.
  unfold replace_unsafe. induction s as [|c s IH]; simpl; [done |].
  rewrite andb_true_iff. intros [-> Hs]. by rewrite IH.
Qed.

Lemma substring0_id n s : (String.length s ≤ n)%nat → substring0 n s = s.
Proof.
  unfold substring0. revert s. induction n as [|n IH]; intros [|c s]; simpl; try done.
  - lia.
  - intros H. rewrite IH; [done | lia].
Qed.

(** X2. Labels that already conform are recorded as they were sent: a project
    name of 1 to 50 letters, digits, [_] and [-] is the project label, and
    a user name of 1 to 64 characters is the requester label. *)
Theorem conforming_labels_unchanged req p u :
  body_projectName req = Some p → body_username req = Some u →
  p ≠ "" → string_forall is_word_or_dash p = true → (String.length p ≤ 50)%nat →
  u ≠ "" → (String.length u ≤ 64)%nat →
  projectName_of req = p ∧ username_of req = u.
Proof.
  intros Hp Hu Hpne Hsafe Hlen Hune Hulen.
  unfold projectName_of, username_of. rewrite Hp, Hu.
  destruct p as [|a p]; [done |]. destruct u as [|a' u]; [done |].
  cbn [or_default]. rewrite replace_unsafe_id by done.
  by rewrite !substring0_id.
Qed.

(** X3. A request without a file whose text is missing or empty is told that no
    HTML was provided; an uploaded [.html] or [.htm] file that is empty is
    told that its content does not look like HTML.  Neither changes the
    server. *)
Theorem empty_content_rejected now rnd req s :
  (req_file req = None → body_text req = None ∨ body_text req = Some "" →
   create_apk now rnd req s = (json 400 false NO_HTML NoExtra, s)) ∧
  (∀ f, req_file req = Some f → buffer f = "" →
        endsWith (toLowerCase (originalname f)) ".html" = true ∨
        endsWith (toLowerCase (originalname f)) ".htm" = true →
        create_apk now rnd req s = (json 400 false NOT_HTML NoExtra, s)).
Proof.
  split.
  - intros Hf Ht. apply create_apk_turned_away. unfold htmlContent_of.
    rewrite Hf. by destruct Ht as [-> | ->].
  - intros f Hf Hb He. apply create_apk_not_html with "".
    + unfold htmlContent_of. rewrite Hf, Hb.
      destruct He as [-> | ->]; [done | by rewrite orb_true_r].
    + reflexivity.
Qed.

End Inputs.

(** ** The names of generated files *)

Section Names.
Context {cfg : Config}.
Import JS JSFacts NameFacts.

Lemma string_forall_app P a b :
  string_forall P (a +:+ b) = string_forall P a && string_forall P b.
Proof. induction a as [|c a IH]; simpl; [done |]. by rewrite IH, andb_assoc. Qed.

Lemma string_forall_impl (P Q : ascii → bool) s :
  (∀ c, P c = true → Q c = true) → string_forall P s = true → string_forall Q s = true.
Proof.
  intros HPQ. induction s as [|c s IH]; simpl; [done |].
  rewrite !andb_true_iff. intros [? ?]. auto.
Qed.

Lemma digit_is_name_char c : is_digit c = true → is_name_char c = true.
Proof.
  unfold is_digit, is_name_char, is_word_or_dash. intros ->. reflexivity.
Qed.

Lemma word_is_name_char c : is_word_or_dash c = true → is_name_char c = true.
Proof. unfold is_name_char. by intros ->. Qed.

Lemma projectName_safe req : string_forall is_word_or_dash (projectName_of req) = true.
Proof.
  unfold projectName_of, or_default at 1.
  pose proof (replace_unsafe_safe (or_default (body_projectName req) "rapz-app")) as Hs.
  apply (string_forall_substring0 _ 50) in Hs.
  by destruct (substring0 50 _).
Qed.

(** X4. Whatever the request says, the name of the generated file is made of
    letters, digits, [_], [-] and [.] only, so it has no [/] and names a
    file of the directory [generated] itself; and it ends in [.apk]. *)
Theorem outName_stays_in_generated now req :
  string_forall is_name_char (outName_of now req) = true ∧
  includes (outName_of now req) "/" = false ∧
  endsWith (outName_of now req) ".apk" = true.
Proof.
  assert (H : string_forall is_name_char (outName_of now req) = true).
  { unfold outName_of. rewrite !string_forall_app, !andb_true_iff.
    repeat split; try reflexivity.
    - eapply string_forall_impl; [apply word_is_name_char | apply projectName_safe].
    - eapply string_forall_impl; [apply digit_is_name_char | apply pretty_digits]. }
  split; [done |]. split.
  - destruct (includes _ "/") eqn:E; [|done].
    apply includes_spec in E as (a & b & E). rewrite E in H.
    rewrite !string_forall_app in H. simpl in H.
    by rewrite andb_false_r in H.
  - apply endsWith_spec. unfold outName_of.
    exists (projectName_of req +:+ "_" +:+ pretty now).
    by rewrite !append_assoc.
Qed.

End Names.

(** ** The template registry, continued *)

Section Uploads.
Context {cfg : Config}.
Import JS JSFacts.

Lemma template_name_apk now : endsWith (template_name now) ".apk" = true.
Proof. apply endsWith_spec. exists ("template_" +:+ pretty now). by rewrite !append_assoc. Qed.

Lemma upload_template_ok now header query buf s :
  admin_pass header query = ADMIN_PASS →
  upload_template now header query (Some buf) s =
    (json 200 true "template uploaded" (Filename (template_name now)),
     set_templates (<[CURRENT := buf]> (<[template_name now := buf]> (templates_dir s))) s).
Proof. intros H. unfold upload_template. by rewrite H, String.eqb_refl. Qed.

(** X5. An upload by the administrator stores the file twice, under its
    timestamped name and as the current template, and touches no other
    template, no artifact, no timer and not the ledger; the listing that
    follows shows both names. *)
Theorem upload_then_read now header query buf s :
  admin_pass header query = ADMIN_PASS →
  let s' := snd (upload_template now header query (Some buf) s) in
  fst (upload_template now header query (Some buf) s) =
    json 200 true "template uploaded" (Filename (template_name now)) ∧
  templates_dir s' !! CURRENT = Some buf ∧
  templates_dir s' !! template_name now = Some buf ∧
  (∀ f, f ≠ CURRENT → f ≠ template_name now →
        templates_dir s' !! f = templates_dir s !! f) ∧
  generated_dir s' = generated_dir s ∧ timers s' = timers s ∧
  DB s' = DB s ∧ db_json s' = db_json s ∧
  ∃ files, list_templates header query s' = json_templates files ∧
           CURRENT ∈ files ∧ template_name now ∈ files.
Proof.
  intros Hp. rewrite (upload_template_ok _ _ _ _ _ Hp). simpl.
  assert (Hcur : (<[CURRENT := buf]> (<[template_name now := buf]> (templates_dir s)))
                 !! CURRENT = Some buf) by apply lookup_insert_eq.
  assert (Hname : (<[CURRENT := buf]> (<[template_name now := buf]> (templates_dir s)))
                  !! template_name now = Some buf).
  { rewrite lookup_insert. case_decide; [done | apply lookup_insert_eq]. }
  repeat split; try done.
  - intros f H1 H2. by rewrite !lookup_insert_ne.
  - eexists. split.
    + unfold list_templates. rewrite Hp, String.eqb_refl. simpl. reflexivity.
    + split; apply list_elem_of_In, filter_In; (split; [apply list_elem_of_In, readdirSync_elem |]).
      * by rewrite Hcur.
      * reflexivity.
      * by rewrite Hname.
      * apply template_name_apk.
Qed.

End Uploads.

(** ** Invariants of a running server *)

Section Invariants.
Context {cfg : Config}.
Import NameFacts.

Lemma cleanup_frame file s :
  DB (cleanup file s) = DB s ∧ db_json (cleanup file s) = db_json s ∧
  templates_dir (cleanup file s) = templates_dir s.
Proof. unfold cleanup. by destruct (unlinkSync _ _). Qed.

Lemma fold_cleanup_frame (due : list (N * string)) s :
  let s' := fold_left (λ st (t : N * string), cleanup (snd t) st) due s in
  DB s' = DB s ∧ db_json s' = db_json s ∧ templates_dir s' = templates_dir s.
Proof.
  revert s. induction due as [|t due IH]; intros s; simpl; [done |].
  destruct (IH (cleanup (snd t) s)) as (-> & -> & ->). apply cleanup_frame.
Qed.

Lemma run_timers_frame t s :
  DB (run_timers t s) = DB s ∧ db_json (run_timers t s) = db_json s ∧
  templates_dir (run_timers t s) = templates_dir s.
Proof. unfold run_timers. apply (fold_cleanup_frame _ (set_timers _ s)). Qed.

Lemma upload_template_frame now h q f s :
  let s' := snd (upload_template now h q f s) in
  DB s' = DB s ∧ db_json s' = db_json s ∧ generated_dir s' = generated_dir s ∧
  timers s' = timers s.
Proof. simpl. unfold upload_template. destruct (negb _); [done |]. by destruct f. Qed.

(** What a generation request does to the ledger, by the three ways it can
    end. *)
Lemma create_apk_ledger now rnd req s :
  let s' := snd (create_apk now rnd req s) in
  templates_dir s' = templates_dir s ∧
  (s' = s ∨
   (∃ err, DB s' = {| stats := {| success := success (stats (DB s));
                                  fail := fail (stats (DB s)) + 1 |};
                      requests := Failed now err :: requests (DB s) |} ∧
           db_json s' = DB s') ∨
   (∃ id u p path file,
      DB s' = {| stats := {| success := success (stats (DB s)) + 1;
                             fail := fail (stats (DB s)) |};
                 requests := Generated id u p path file now :: requests (DB s) |} ∧
      db_json s' = DB s')).
Proof.
  simpl. destruct (create_apk_paths req s)
    as [[r H]|[(c & H & Hv)|[(c & H & Hv & Ht)|[(c & b & H & Hv & Ht & Hz)|(c & b & z & H & Hv & Ht & Hz)]]]].
  - rewrite (create_apk_turned_away _ _ _ _ _ H). auto.
  - rewrite (create_apk_not_html _ _ _ _ _ H Hv). auto.
  - rewrite (create_apk_no_template _ _ _ _ _ H Hv Ht). auto.
  - rewrite (create_apk_thrown _ _ _ _ _ _ H Hv Ht Hz). unfold catch_error. simpl.
    split; [done |]. right. left. by eexists.
  - destruct (create_apk_generated now rnd _ _ _ _ _ H Hv Ht Hz)
      as (s1 & -> & _ & Htpl & _ & Hdb & Hjs).
    simpl. split; [done |]. right. right.
    eexists _, _, _, _, _. split; [exact Hdb | exact Hjs].
Qed.

Lemma run_cons ev evs s : run (ev :: evs) s = run evs (serve s ev).
Proof. reflexivity. Qed.

(** X6. The file [db.json] holds what the variable [DB] holds: every request
    keeps them equal, so the administrator's view of the ledger is what is
    on disk, and a restart loses no record. *)
Theorem db_json_in_sync evs s :
  db_json s = DB s →
  db_json (run evs s) = DB (run evs s) ∧
  DB (restart (run evs s)) = DB (run evs s) ∧
  ∀ header query, admin_pass_db header query = ADMIN_PASS →
    admin_db header query (run evs s) = inr (db_json (run evs s)).
Proof.
  intros H. assert (Hs : db_json (run evs s) = DB (run evs s)).
  { revert s H. induction evs as [|[t r] evs IH]; intros s H; [done |].
    rewrite run_cons. apply IH. unfold serve. simpl.
    destruct (run_timers_frame t s) as (Hd & Hj & _).
    destruct r as [rnd req|h q f| |]; simpl.
    - destruct (create_apk_ledger t rnd req (run_timers t s))
        as (_ & [-> | [(err & _ & ->) | (? & ? & ? & ? & ? & _ & ->)]]); try done.
      congruence.
    - destruct (upload_template_frame t h q f (run_timers t s)) as (-> & -> & _).
      congruence.
    - congruence.
    - congruence. }
  split; [done |]. split; [done |].
  intros header query Hp. unfold admin_db. by rewrite Hp, String.eqb_refl, Hs.
Qed.

(** X7. The counters count the ledger: when [success] is the number of records
    of generated artifacts and [fail] the number of failure records, they
    still are after any requests. *)
Theorem counters_count_ledger evs s :
  success (stats (DB s)) = N.of_nat (length (List.filter is_generated (requests (DB s)))) →
  fail (stats (DB s)) =
    N.of_nat (length (List.filter (λ r, negb (is_generated r)) (requests (DB s)))) →
  let s' := run evs s in
  success (stats (DB s')) = N.of_nat (length (List.filter is_generated (requests (DB s')))) ∧
  fail (stats (DB s')) =
    N.of_nat (length (List.filter (λ r, negb (is_generated r)) (requests (DB s')))).
Proof.
  simpl. revert s. induction evs as [|[t r] evs IH]; intros s H1 H2; [done |].
  rewrite run_cons. unfold serve. simpl.
  destruct (run_timers_frame t s) as (Hd & _ & _).
  destruct r as [rnd req|h q f| |]; simpl.
  - destruct (create_apk_ledger t rnd req (run_timers t s))
      as (_ & [Heq | [(err & Hdb & _) | (? & ? & ? & ? & ? & Hdb & _)]]).
    + apply IH; rewrite Heq, Hd; done.
    + apply IH; rewrite Hdb, Hd; simpl; lia.
    + apply IH; rewrite Hdb, Hd; simpl; lia.
  - destruct (upload_template_frame t h q f (run_timers t s)) as (Hu & _).
    apply IH; rewrite Hu, Hd; done.
  - apply IH; rewrite Hd; done.
  - apply IH; rewrite Hd; done.
Qed.

(** X8. The ledger is kept newest first: when the clock readings of the
    requests never go back, the records of the ledger carry clock readings
    that never increase from the head on. *)
Theorem ledger_newest_first evs c s :
  monotone c evs →
  Forall (λ r, (rec_time r ≤ c)%N) (requests (DB s)) →
  StronglySorted (λ a b, (rec_time b ≤ rec_time a)%N) (requests (DB s)) →
  StronglySorted (λ a b, (rec_time b ≤ rec_time a)%N) (requests (DB (run evs s))).
Proof.
  revert c s. induction evs as [|[t r] evs IH]; intros c s Hm Hc Hs; [done |].
  destruct Hm as [Hct Hm]. simpl in Hct, Hm. rewrite run_cons.
  assert (Hc' : Forall (λ r, (rec_time r ≤ t)%N) (requests (DB s))).
  { eapply Forall_impl; [exact Hc |]. simpl. intros; lia. }
  unfold serve. simpl. destruct (run_timers_frame t s) as (Hd & _ & _).
  assert (Hnew : ∀ x, rec_time x = t →
            Forall (λ r, (rec_time r ≤ t)%N) (x :: requests (DB s)) ∧
            StronglySorted (λ a b, (rec_time b ≤ rec_time a)%N) (x :: requests (DB s))).
  { intros x Hx. split.
    - constructor; [lia | done].
    - constructor; [done |]. by rewrite Hx. }
  destruct r as [rnd req|h q f| |]; simpl.
  - destruct (create_apk_ledger t rnd req (run_timers t s))
      as (_ & [Heq | [(err & Hdb & _) | (? & ? & ? & ? & ? & Hdb & _)]]).
    + apply (IH t); [done | |]; rewrite Heq, Hd; done.
    + apply (IH t); [done | |]; rewrite Hdb, Hd; simpl; by apply Hnew.
    + apply (IH t); [done | |]; rewrite Hdb, Hd; simpl; by apply Hnew.
  - destruct (upload_template_frame t h q f (run_timers t s)) as (Hu & _).
    apply (IH t); [done | |]; rewrite Hu, Hd; done.
  - apply (IH t); [done | |]; rewrite Hd; done.
  - apply (IH t); [done | |]; rewrite Hd; done.
Qed.

End Invariants.

(** ** The template registry over a run *)

Section RegistryRuns.
Context {cfg : Config}.

Lemma handle_templates_kept t r s name :
  is_Some (templates_dir s !! name) → is_Some (templates_dir (handle t r s) !! name).
Proof.
  intros H. destruct r as [rnd req|h q f| |]; simpl; try done.
  - by destruct (create_apk_ledger t rnd req s) as (-> & _).
  - unfold upload_template. destruct (negb _); [done |]. destruct f as [buf|]; [|done].
    simpl. rewrite !lookup_insert. by repeat case_decide.
Qed.

Lemma handle_templates_same t r s :
  is_upload r = false → templates_dir (handle t r s) = templates_dir s.
Proof.
  destruct r as [rnd req|h q f| |]; simpl; try done.
  intros _. by destruct (create_apk_ledger t rnd req s) as (-> & _).
Qed.

(** X9. Nothing the server does removes a template: a name of the templates
    directory is still there after any requests; and the directory changes
    by uploads only. *)
Theorem templates_never_removed evs s :
  (∀ name, is_Some (templates_dir s !! name) →
           is_Some (templates_dir (run evs s) !! name)) ∧
  (Forall (λ ev, is_upload (snd ev) = false) evs →
   templates_dir (run evs s) = templates_dir s).
Proof.
  split.
  - revert s. induction evs as [|[t r] evs IH]; intros s name H; [done |].
    rewrite run_cons. apply IH. unfold serve. simpl. apply handle_templates_kept.
    by destruct (run_timers_frame t s) as (_ & _ & ->).
  - revert s. induction evs as [|[t r] evs IH]; intros s H; [done |].
    rewrite run_cons. apply Forall_cons in H as [Hr H]. rewrite (IH _ H).
    unfold serve. simpl. rewrite handle_templates_same by done.
    by destruct (run_timers_frame t s) as (_ & _ & ->).
Qed.

(** X10. The current template is the last one uploaded: after an upload by the
    administrator, and whatever requests other than uploads follow, the
    current template is the uploaded file. *)
Theorem current_is_last_upload s t header query buf evs :
  admin_pass header query = ADMIN_PASS →
  Forall (λ ev, is_upload (snd ev) = false) evs →
  templates_dir (run evs (serve s (t, UploadTemplate header query (Some buf))))
    !! CURRENT = Some buf.
Proof.
  intros Hp Hevs.
  assert (Hsame : ∀ s0, templates_dir (run evs s0) = templates_dir s0).
  { clear s. induction evs as [|[t1 r] evs IH]; intros s0; [done |].
    apply Forall_cons in Hevs as [Hr Hevs]. rewrite run_cons, (IH Hevs).
    unfold serve. simpl. rewrite handle_templates_same by done.
    by destruct (run_timers_frame t1 s0) as (_ & _ & ->). }
  rewrite Hsame. unfold serve. simpl.
  rewrite (upload_template_ok _ _ _ _ _ Hp). simpl. apply lookup_insert_eq.
Qed.

(** X11. The last upload decides what a generation does: on an archive the
    request with an accepted content succeeds and its artifact is that
    archive rewritten; on a file that is not an archive the request fails
    with the library's error and is counted as a failure.  What the
    registry held before plays no part. *)
Theorem generation_uses_last_upload t1 header query buf s t2 rnd req c :
  admin_pass header query = ADMIN_PASS →
  htmlContent_of req = inr c → isLikelyHtml c = true →
  let s1 := snd (upload_template t1 header query (Some buf) s) in
  match AdmZip.open buf with
  | Some z =>
    ∃ s2, create_apk t2 rnd req s1 =
            (json 200 true "APK generated"
               (DownloadUrl ("/generated/" +:+ outName_of t2 req)), s2) ∧
          fetch (outName_of t2 req) s2 =
            Some (writeZip (rewrite z (replacePath_of req) c))
  | None =>
    create_apk t2 rnd req s1 = catch_error t2 INVALID_FORMAT s1 ∧
    fail (stats (DB (snd (create_apk t2 rnd req s1)))) = (fail (stats (DB s)) + 1)%N ∧
    generated_dir (snd (create_apk t2 rnd req s1)) = generated_dir s
  end.
Proof.
  intros Hp H Hv s1.
  assert (Hcur : templates_dir s1 !! CURRENT = Some buf).
  { subst s1. rewrite (upload_template_ok _ _ _ _ _ Hp). apply lookup_insert_eq. }
  destruct (AdmZip.open buf) as [z|] eqn:Hz.
  - destruct (create_apk_generated t2 rnd _ _ _ _ _ H Hv Hcur Hz) as (s2 & Hs2 & Hg & _).
    exists s2. split; [done |]. unfold fetch. rewrite Hg. apply lookup_insert_eq.
  - rewrite (create_apk_thrown _ _ _ _ _ _ H Hv Hcur Hz). split; [done |].
    subst s1. rewrite (upload_template_ok _ _ _ _ _ Hp). by simpl.
Qed.

End RegistryRuns.

(** ** Who the administrator is *)

Section Passwords.
Context {cfg : Config}.

(** X12. A request that sends no password, or empty ones, is refused by the
    three administrator endpoints, and an upload so refused changes
    nothing.  The password of the server is never empty: it is
    [process.env.ADMIN_PASS || 'admin123']. *)
Theorem no_password_refused header query now file s :
  ADMIN_PASS ≠ "" →
  header = None ∨ header = Some "" → query = None ∨ query = Some "" →
  upload_template now header query file s = (REFUSED, s) ∧
  list_templates header query s = REFUSED ∧
  admin_db header query s = inl REFUSED.
Proof.
  intros Hne Hh Hq.
  assert (H1 : admin_pass header query = "") by (by destruct Hh as [-> | ->], Hq as [-> | ->]).
  assert (H2 : admin_pass_db header query = "") by (by destruct Hh as [-> | ->], Hq as [-> | ->]).
  assert (He : String.eqb "" ADMIN_PASS = false).
  { apply String.eqb_neq. congruence. }
  unfold upload_template, list_templates, admin_db. by rewrite H1, H2, He.
Qed.

(** X13. The endpoints do not read the password alike.  The upload and the
    listing take the header first, the ledger view takes the query string
    first: of a request that sends the password one way and another
    non-empty word the other way, each endpoint serves what the other
    refuses. *)
Theorem password_precedence_differs other s :
  other ≠ "" → other ≠ ADMIN_PASS → ADMIN_PASS ≠ "" →
  list_templates (Some other) (Some ADMIN_PASS) s = REFUSED ∧
  admin_db (Some other) (Some ADMIN_PASS) s = inr (DB s) ∧
  ok (list_templates (Some ADMIN_PASS) (Some other) s) = true ∧
  admin_db (Some ADMIN_PASS) (Some other) s = inl REFUSED.
Proof.
  intros Ho Hne Ha.
  assert (He : String.eqb other ADMIN_PASS = false) by (by apply String.eqb_neq).
  unfold list_templates, admin_db, admin_pass, admin_pass_db.
  destruct other as [|a o]; [done |]. destruct ADMIN_PASS as [|b p] eqn:E; [done |].
  cbn [JS.or_default]. by rewrite He, String.eqb_refl.
Qed.

End Passwords.

(** ** Artifacts and their timers *)

Section Timers.
Context {cfg : Config}.
Import NameFacts.

Lemma cleanup_delay_pos : (1 ≤ cleanup_delay)%N.
Proof. apply timeout_delay_pos. Qed.

Lemma fetch_cleanup name file s :
  fetch name (cleanup file s) = if decide (file = name) then None else fetch name s.
Proof.
  case_decide as E.
  - subst. apply fetch_cleanup_eq.
  - unfold cleanup, unlinkSync, fetch.
    destruct (generated_dir s !! file); simpl; [by rewrite lookup_delete_ne | done].
Qed.

Lemma fold_cleanup_other (due : list (N * string)) name s :
  Forall (λ x, snd x ≠ name) due →
  fetch name (fold_left (λ st (t : N * string), cleanup (snd t) st) due s) = fetch name s.
Proof.
  revert s. induction due as [|x due IH]; intros s H; simpl; [done |].
  apply Forall_cons in H as [Hx H]. rewrite (IH _ H), fetch_cleanup.
  by case_decide.
Qed.

Lemma fold_cleanup_subset (due : list (N * string)) name s :
  is_Some (fetch name (fold_left (λ st (t : N * string), cleanup (snd t) st) due s)) →
  is_Some (fetch name s).
Proof.
  revert s. induction due as [|x due IH]; intros s H; simpl in *; [done |].
  apply IH in H. rewrite fetch_cleanup in H. case_decide; [by destruct H | done].
Qed.

(** The timers only remove what is due: a file none of whose timers is due
    is left as it is. *)
Lemma run_timers_not_due t name s :
  (∀ d, (d, name) ∈ timers s → (t < d)%N) →
  fetch name (run_timers t s) = fetch name s.
Proof.
  intros H. unfold run_timers. rewrite fold_cleanup_other; [done |].
  apply Forall_forall. intros [d n] Hin. simpl. intros ->.
  apply list_elem_of_In, filter_In in Hin as [Hin Hd]. simpl in Hd.
  apply list_elem_of_In, H in Hin. apply N.leb_le in Hd. lia.
Qed.

Lemma run_timers_timers t s d n :
  (d, n) ∈ timers (run_timers t s) ↔ (d, n) ∈ timers s ∧ (t < d)%N.
Proof.
  unfold run_timers. rewrite fold_cleanup_timers. simpl.
  rewrite list_elem_of_In, filter_In, <- list_elem_of_In. simpl.
  rewrite negb_true_iff, N.leb_gt. done.
Qed.

Lemma serve_removals_pending s ev :
  removals_pending s →
  removals_pending (serve s ev) ∧
  ∀ d n, (d, n) ∈ timers (serve s ev) → (fst ev < d)%N.
Proof.
  destruct ev as [t r]. intros [Hf Hw]. unfold serve. simpl.
  assert (Hf1 : ∀ n, is_Some (fetch n (run_timers t s)) →
                     ∃ d, (d, n) ∈ timers (run_timers t s)).
  { intros n Hn. assert (Hn0 : is_Some (fetch n s)).
    { unfold run_timers in Hn. apply fold_cleanup_subset in Hn. exact Hn. }
    destruct (Hf n Hn0) as [d Hd]. exists d. apply run_timers_timers. split; [done |].
    destruct (decide (t < d)%N) as [|Hle]; [done |].
    rewrite (run_timers_fired t d n s Hd) in Hn by lia. by destruct Hn. }
  assert (Hw1 : ∀ d n, (d, n) ∈ timers (run_timers t s) →
                       ∃ t0 req, n = outName_of t0 req ∧ d = (t0 + cleanup_delay)%N).
  { intros d n Hd. apply run_timers_timers in Hd as [Hd _]. eauto. }
  assert (Hl1 : ∀ d n, (d, n) ∈ timers (run_timers t s) → (t < d)%N).
  { intros d n Hd. by apply run_timers_timers in Hd as [_ Hd]. }
  pose proof cleanup_delay_pos as Hpos.
  destruct r as [rnd req|h q f| |]; simpl; try done.
  - destruct (create_apk_effect t rnd req (run_timers t s)) as [[Hg Ht]|(B & Hg & Ht)].
    + unfold removals_pending, fetch. rewrite Hg, Ht. done.
    + unfold removals_pending, fetch. rewrite Hg, Ht. repeat split.
      * intros n Hn. rewrite lookup_insert in Hn. case_decide as E.
        -- subst n. eexists. apply elem_of_app. right. by apply list_elem_of_singleton.
        -- destruct (Hf1 n Hn) as [d Hd]. exists d. apply elem_of_app. by left.
      * intros d n Hd. apply elem_of_app in Hd as [Hd|Hd]; [eauto |].
        apply list_elem_of_singleton in Hd. injection Hd as -> ->. eauto.
      * intros d n Hd. apply elem_of_app in Hd as [Hd|Hd]; [eauto |].
        apply list_elem_of_singleton in Hd. injection Hd as -> ->. lia.
  - destruct (upload_template_frame t h q f (run_timers t s)) as (_ & _ & Hg & Ht).
    unfold removals_pending, fetch. rewrite Hg, Ht. done.
Qed.

(** X14. No artifact is left behind by a running server: after any requests,
    each file of the directory [generated] is an artifact [outName_of t req]
    whose removal timer is still pending, set for [t] plus the delay, and
    due after the last clock reading. *)
Theorem artifacts_have_pending_removal evs ev name :
  let s := run (evs ++ [ev]) initial_server in
  is_Some (fetch name s) →
  ∃ t req, name = outName_of t req ∧
           ((t + cleanup_delay)%N, name) ∈ timers s ∧
           (fst ev < t + cleanup_delay)%N.
Proof.
  simpl. unfold run. rewrite fold_left_app. simpl. fold (run evs initial_server).
  assert (Hinv : removals_pending (run evs initial_server)).
  { assert (H0 : removals_pending initial_server).
    { split.
      - intros n Hn. unfold fetch in Hn. simpl in Hn. rewrite lookup_empty in Hn.
        by destruct Hn.
      - intros d n Hd. simpl in Hd. by apply elem_of_nil in Hd. }
    revert H0. generalize initial_server.
    induction evs as [|e evs IH]; intros s0 H0; [done |].
    rewrite run_cons. apply IH. by apply serve_removals_pending. }
  destruct (serve_removals_pending _ ev Hinv) as [[Hf Hw] Hl].
  intros Hn. destruct (Hf name Hn) as [d Hd].
  destruct (Hw d name Hd) as (t & req & Hname & Hdue).
  exists t, req. split; [done |]. rewrite <- Hdue. split; [done | eauto].
Qed.

Lemma monotone_last c evs t r : monotone c (evs ++ [(t, r)]) → (c ≤ t)%N.
Proof.
  revert c. induction evs as [|e evs IH]; intros c; simpl.
  - by intros [? _].
  - intros [Hc Hm]. apply IH in Hm. lia.
Qed.

(** X15. Until its timer is due an artifact can be fetched, with the bytes that
    were written: requests that come later than the generation, before the
    timer is due, do not change what a fetch returns.  (Timers that an
    earlier request may have set for the same name must not be due before;
    on a server that ran from the start there is none.) *)
Theorem artifact_available_until_due now rnd req s resp s' evs t :
  create_apk now rnd req s = (resp, s') → ok resp = true →
  let name := outName_of now req in
  (∀ d, (d, name) ∈ timers s → (now + cleanup_delay ≤ d)%N) →
  monotone (now + 1) (evs ++ [(t, GetGenerated name)]) →
  (t < now + cleanup_delay)%N →
  is_Some (fetch name s') ∧
  fetch name (run (evs ++ [(t, GetGenerated name)]) s') = fetch name s'.
Proof.
  intros Hc Hok name Hold Hm Ht.
  assert (Hs' : is_Some (fetch name s') ∧
                ∀ d, (d, name) ∈ timers s' → (now + cleanup_delay ≤ d)%N).
  { destruct (create_apk_paths req s)
      as [[r H]|[(c & H & Hv)|[(c & H & Hv & Htp)|[(c & b & H & Hv & Htp & Hz)|(c & b & z & H & Hv & Htp & Hz)]]]].
    - rewrite (create_apk_turned_away _ _ _ _ _ H) in Hc. injection Hc as <- <-.
      by destruct (htmlContent_of_inl _ _ H) as [-> | ->].
    - rewrite (create_apk_not_html _ _ _ _ _ H Hv) in Hc. by injection Hc as <- <-.
    - rewrite (create_apk_no_template _ _ _ _ _ H Hv Htp) in Hc. by injection Hc as <- <-.
    - rewrite (create_apk_thrown _ _ _ _ _ _ H Hv Htp Hz) in Hc. by injection Hc as <- <-.
    - destruct (create_apk_generated now rnd _ _ _ _ _ H Hv Htp Hz)
        as (s1 & Hs1 & Hg & _ & Htm & _).
      rewrite Hs1 in Hc. injection Hc as <- <-. split.
      + unfold fetch. rewrite Hg. fold name. rewrite lookup_insert_eq. by eexists.
      + intros d Hd. rewrite Htm in Hd. apply elem_of_app in Hd as [Hd|Hd]; [eauto |].
        apply list_elem_of_singleton in Hd. injection Hd as ->. lia. }
  destruct Hs' as [Hsome Htm]. split; [done |].
  clear Hc Hok Hold Hsome. pose (s0 := s').
  assert (Hgoal : ∀ st c, fetch name st = fetch name s0 →
            (∀ d, (d, name) ∈ timers st → (now + cleanup_delay ≤ d)%N) →
            (now < c)%N → monotone c (evs ++ [(t, GetGenerated name)]) →
            fetch name (run (evs ++ [(t, GetGenerated name)]) st) = fetch name s0).
  { clear Hm. induction evs as [|[t1 r1] evs IH]; intros st c Hst Hst2 Hc Hm.
    - simpl. unfold serve. simpl. rewrite run_timers_not_due; [done |].
      intros d Hd. apply Hst2 in Hd. lia.
    - simpl in Hm. destruct Hm as [Hc1 Hm]. pose proof (monotone_last _ _ _ _ Hm) as Ht1.
      change (run (((t1, r1) :: evs) ++ [(t, GetGenerated name)]) st)
        with (run (evs ++ [(t, GetGenerated name)]) (serve st (t1, r1))).
      apply (IH _ t1); [| |lia|done].
      + unfold serve. simpl. rewrite <- Hst.
        rewrite <- (run_timers_not_due t1 name st) by (intros d Hd; apply Hst2 in Hd; lia).
        destruct r1 as [rnd1 req1|h q f| |]; simpl; try done.
        * unfold fetch.
          destruct (create_apk_effect t1 rnd1 req1 (run_timers t1 st)) as [[-> _]|(B & -> & _)];
            [done |].
          rewrite lookup_insert_ne; [done |].
          intros Heq. apply artifact_name_time in Heq. lia.
        * destruct (upload_template_frame t1 h q f (run_timers t1 st)) as (_ & _ & Hg & _).
          unfold fetch. by rewrite Hg.
      + unfold serve. simpl. intros d Hd.
        destruct r1 as [rnd1 req1|h q f| |]; simpl in Hd.
        * destruct (create_apk_effect t1 rnd1 req1 (run_timers t1 st)) as [[_ Htt]|(B & _ & Htt)];
            rewrite Htt in Hd.
          -- apply run_timers_timers in Hd as [Hd _]. eauto.
          -- apply elem_of_app in Hd as [Hd|Hd].
             ++ apply run_timers_timers in Hd as [Hd _]. eauto.
             ++ apply list_elem_of_singleton in Hd. injection Hd as -> Hn.
                apply artifact_name_time in Hn. lia.
        * destruct (upload_template_frame t1 h q f (run_timers t1 st)) as (_ & _ & _ & Htt).
          rewrite Htt in Hd. apply run_timers_timers in Hd as [Hd _]. eauto.
        * apply run_timers_timers in Hd as [Hd _]. eauto.
        * apply run_timers_timers in Hd as [Hd _]. eauto. }
  apply (Hgoal s' (now + 1)%N); [done | done | lia | done].
Qed.

(** X16. A restart forgets the removals: the timers live in the process, so an
    artifact that is on disk when the server starts again stays there,
    with its bytes, whatever requests follow (short of one that generates a
    file of the same name). *)
Theorem restart_forgets_removals s evs name :
  (∀ t rnd req, (t, CreateApk rnd req) ∈ evs → outName_of t req ≠ name) →
  timers (restart s) = [] ∧
  fetch name (run evs (restart s)) = fetch name s.
Proof.
  intros Hev. split; [done |].
  assert (Hgoal : ∀ st, fetch name st = fetch name s →
            (∀ d, (d, name) ∉ timers st) →
            fetch name (run evs st) = fetch name s).
  { induction evs as [|[t1 r1] evs IH]; intros st Hst Hno; [done |].
    rewrite run_cons. apply IH.
    - intros t rnd req Hin. apply (Hev t rnd req). apply elem_of_cons. by right.
    - unfold serve. simpl. rewrite <- Hst.
      rewrite <- (run_timers_not_due t1 name st) by (intros d Hd; by apply Hno in Hd).
      destruct r1 as [rnd1 req1|h q f| |]; simpl; try done.
      + unfold fetch.
        destruct (create_apk_effect t1 rnd1 req1 (run_timers t1 st)) as [[-> _]|(B & -> & _)];
          [done |].
        rewrite lookup_insert_ne; [done |]. apply (Hev t1 rnd1 req1).
        apply elem_of_cons. by left.
      + destruct (upload_template_frame t1 h q f (run_timers t1 st)) as (_ & _ & Hg & _).
        unfold fetch. by rewrite Hg.
    - unfold serve. simpl. intros d Hd.
      destruct r1 as [rnd1 req1|h q f| |]; simpl in Hd.
      + destruct (create_apk_effect t1 rnd1 req1 (run_timers t1 st)) as [[_ Htt]|(B & _ & Htt)];
          rewrite Htt in Hd.
        * apply run_timers_timers in Hd as [Hd _]. by apply Hno in Hd.
        * apply elem_of_app in Hd as [Hd|Hd].
          -- apply run_timers_timers in Hd as [Hd _]. by apply Hno in Hd.
          -- apply list_elem_of_singleton in Hd. injection Hd as _ Hn.
             apply (Hev t1 rnd1 req1); [apply elem_of_cons; by left | done].
      + destruct (upload_template_frame t1 h q f (run_timers t1 st)) as (_ & _ & _ & Htt).
        rewrite Htt in Hd. apply run_timers_timers in Hd as [Hd _]. by apply Hno in Hd.
      + apply run_timers_timers in Hd as [Hd _]. by apply Hno in Hd.
      + apply run_timers_timers in Hd as [Hd _]. by apply Hno in Hd. }
  apply Hgoal; [done |]. intros d Hd. simpl in Hd. by apply elem_of_nil in Hd.
Qed.

End Timers.

(** ** The archive rewrite, continued *)

Section RewriteAbsent.
Context {cfg : Config}.
Import AdmZipFacts.


End RewriteAbsent.

(** * More runs on the example server *)

Module MoreRuns.
Import Example Scenario.

Lemma conforming_labels_unchanged_run :
  projectName_of conforming = "my-app_2" ∧ username_of conforming = "ana".
Proof.
  refine (conforming_labels_unchanged conforming "my-app_2" "ana" eq_refl eq_refl
            _ eq_refl _ _ _); [discriminate | simpl; lia | discriminate | simpl; lia].
Defined.

Lemma upload_then_read_run :
  templates_dir (snd (upload_template (cfg := config) 1000 (Some "admin123") None
                        (Some template) initial_server)) !! CURRENT = Some template ∧
  ∃ files,
    list_templates (cfg := config) (Some "admin123") None
      (snd (upload_template (cfg := config) 1000 (Some "admin123") None
              (Some template) initial_server)) = json_templates files ∧
    CURRENT ∈ files ∧ template_name 1000 ∈ files.
Proof.
  destruct (upload_then_read (cfg := config) 1000 (Some "admin123") None template
              initial_server eq_refl) as (_ & H1 & _ & _ & _ & _ & _ & _ & H2).
  split; [exact H1 | exact H2].
Defined.

Lemma db_json_in_sync_run :
  db_json (run (cfg := config) traffic initial_server) =
  DB (run (cfg := config) traffic initial_server).
Proof. exact (proj1 (db_json_in_sync (cfg := config) traffic initial_server eq_refl)). Defined.

Lemma counters_count_ledger_run :
  success (stats (DB (run (cfg := config) traffic initial_server))) =
    N.of_nat (length (List.filter is_generated
                        (requests (DB (run (cfg := config) traffic initial_server))))) ∧
  fail (stats (DB (run (cfg := config) traffic initial_server))) =
    N.of_nat (length (List.filter (λ r, negb (is_generated r))
                        (requests (DB (run (cfg := config) traffic initial_server))))).
Proof.
  exact (counters_count_ledger (cfg := config) traffic initial_server eq_refl eq_refl).
Defined.

Lemma ledger_newest_first_run :
  monotone 0 traffic ∧
  StronglySorted (λ a b, (rec_time b ≤ rec_time a)%N)
    (requests (DB (run (cfg := config) traffic initial_server))).
Proof.
  assert (Hm : monotone 0 traffic) by (simpl; repeat split; lia).
  split; [exact Hm |].
  refine (ledger_newest_first (cfg := config) traffic 0 initial_server Hm _ _);
    constructor.
Defined.

Lemma current_is_last_upload_run :
  templates_dir
    (run (cfg := config) [(90000%N, CreateApk "p0m2zz" (paste "ana" None page))]
       (serve (cfg := config) broken_server
          (2500%N, UploadTemplate (Some "admin123") None (Some template))))
    !! CURRENT = Some template.
Proof.
  refine (current_is_last_upload (cfg := config) broken_server 2500 (Some "admin123") None
            template [(90000%N, CreateApk "p0m2zz" (paste "ana" None page))] eq_refl _).
  repeat constructor.
Defined.

Lemma generation_uses_last_upload_run :
  ∃ s2,
    create_apk (cfg := config) 3000 "k3x9qa" (paste "ana" None page)
      (snd (upload_template (cfg := config) 2500 (Some "admin123") None (Some template)
              broken_server)) =
      (json 200 true "APK generated"
         (DownloadUrl ("/generated/" +:+ outName_of 3000 (paste "ana" None page))), s2) ∧
    fetch (outName_of 3000 (paste "ana" None page)) s2 =
      Some (writeZip (rewrite (cfg := config) entries
                        (replacePath_of (paste "ana" None page)) page)).
Proof.
  exact (generation_uses_last_upload (cfg := config) 2500 (Some "admin123") None template
           broken_server 3000 "k3x9qa" (paste "ana" None page) page eq_refl eq_refl eq_refl).
Defined.

Lemma no_password_refused_run :
  upload_template (cfg := config) 1000 None (Some "") (Some template) server
    = (REFUSED, server) ∧
  list_templates (cfg := config) None (Some "") server = REFUSED ∧
  admin_db (cfg := config) None (Some "") server = inl REFUSED.
Proof.
  refine (no_password_refused (cfg := config) None (Some "") 1000 (Some template) server
            _ (or_introl eq_refl) (or_intror eq_refl)).
  simpl. discriminate.
Defined.

Lemma password_precedence_differs_run :
  list_templates (cfg := config) (Some "guess") (Some "admin123") server = REFUSED ∧
  admin_db (cfg := config) (Some "guess") (Some "admin123") server = inr (DB server) ∧
  ok (list_templates (cfg := config) (Some "admin123") (Some "guess") server) = true ∧
  admin_db (cfg := config) (Some "admin123") (Some "guess") server = inl REFUSED.
Proof.
  refine (password_precedence_differs (cfg := config) "guess" server _ _ _);
    simpl; discriminate.
Defined.

Lemma artifacts_have_pending_removal_run :
  ∃ t req,
    "my-app_90000.apk" = outName_of t req ∧
    ((t + cleanup_delay (cfg := config))%N, "my-app_90000.apk")
      ∈ timers (run (cfg := config)
                  (traffic ++ [(100000%N, GetGenerated "my-app_90000.apk")])
                  initial_server) ∧
    (100000 < t + cleanup_delay (cfg := config))%N.
Proof.
  refine (artifacts_have_pending_removal (cfg := config) traffic
            (100000%N, GetGenerated "my-app_90000.apk") "my-app_90000.apk" _).
  eexists. vm_compute. reflexivity.
Defined.

Lemma artifact_available_until_due_run :
  is_Some (fetch (outName_of 2000 (paste "ana" None page))
             (snd (create_apk (cfg := config) 2000 "k3x9qa" (paste "ana" None page) server))) ∧
  fetch (outName_of 2000 (paste "ana" None page))
    (run (cfg := config)
       (later_traffic ++ [(3601999%N, GetGenerated (outName_of 2000 (paste "ana" None page)))])
       (snd (create_apk (cfg := config) 2000 "k3x9qa" (paste "ana" None page) server)))
  = fetch (outName_of 2000 (paste "ana" None page))
      (snd (create_apk (cfg := config) 2000 "k3x9qa" (paste "ana" None page) server)).
Proof.
  refine (artifact_available_until_due (cfg := config) 2000 "k3x9qa" (paste "ana" None page)
            server _ _ later_traffic 3601999 (surjective_pairing _) eq_refl _ _ _).
  - intros d Hd. exact (False_ind _ (proj1 (elem_of_nil _) Hd)).
  - simpl. repeat split; lia.
  - vm_compute. reflexivity.
Defined.

Lemma restart_forgets_removals_run :
  fetch "my-app_2000.apk"
    (run (cfg := config) later_traffic
       (restart (snd (create_apk (cfg := config) 2000 "k3x9qa" (paste "ana" None page)
                        server))))
  = fetch "my-app_2000.apk"
      (snd (create_apk (cfg := config) 2000 "k3x9qa" (paste "ana" None page) server)).
Proof.
  refine (proj2 (restart_forgets_removals (cfg := config)
            (snd (create_apk (cfg := config) 2000 "k3x9qa" (paste "ana" None page) server))
            later_traffic "my-app_2000.apk" _)).
  intros t rnd req Hin. unfold later_traffic in Hin.
  apply elem_of_cons in Hin as [Hin | Hin]; [discriminate |].
  apply elem_of_cons in Hin as [Hin | Hin].
  - injection Hin as -> _ ->. vm_compute. discriminate.
  - by apply elem_of_nil in Hin.
Defined.


End MoreRuns.
